(** * gold-price: the in-memory TTL cache and the fetch orchestration of
    [src/server.ts], embedded in Rocq.

    - [JSMap]        the insertion-ordered [Map<string, V>] of JavaScript;
    - [MemoryCache]  the class [MemoryCache], one definition per method, in a
                     small state monad over the private field [cache];
    - [Server]       the three fetch helpers and the [/api/gold/current]
                     handler, in a monad that threads the cache, the clock and
                     the log of upstream requests, and carries exceptions.

    [Date.now()] is an explicit clock reading in milliseconds ([Z]); the
    [console.log] lines and the interval timer that calls [cleanup] are
    outside the model. *)

From Stdlib Require Import List String Ascii ZArith Lia Bool Arith.
From Stdlib Require Import Floats.PrimFloat.
From Stdlib Require Import Numbers.DecimalString.
Import ListNotations.

Local Open Scope string_scope.
Local Open Scope Z_scope.

(** A JavaScript [number] that the server only carries around (prices,
    volumes): an IEEE 754 binary64. *)
Definition number := float.

(** Truthiness of a JavaScript string: every string but the empty one. *)
Definition truthy_string (s : string) : bool :=
  match s with
  | EmptyString => false
  | String _ _ => true
  end.

(* ================================================================== *)
(** * [Map<string, V>]: an association list in insertion order         *)
(* ================================================================== *)

Module JSMap.

Definition t (V : Type) := list (string * V).

Section Ops.
Context {V : Type}.

Definition empty : t V := [].

(** [m.size] *)
Definition size (m : t V) : nat := List.length m.

(** [m.get(k)], [None] for [undefined] *)
Fixpoint get (k : string) (m : t V) : option V :=
  match m with
  | [] => None
  | (k', v) :: rest => if String.eqb k k' then Some v else get k rest
  end.

(** [m.has(k)] *)
Definition has (k : string) (m : t V) : bool :=
  match get k m with Some _ => true | None => false end.

(** [m.set(k, v)]: a key already present keeps its place in the
    iteration order and gets the new value; a new key goes last. *)
Fixpoint set (k : string) (v : V) (m : t V) : t V :=
  match m with
  | [] => [(k, v)]
  | (k', v') :: rest =>
      if String.eqb k k' then (k, v) :: rest else (k', v') :: set k v rest
  end.

(** [m.delete(k)] *)
Definition delete (k : string) (m : t V) : t V :=
  filter (fun p => negb (String.eqb k (fst p))) m.

(** [m.clear()] *)
Definition clear (m : t V) : t V := [].

(** [m.keys()], in iteration order *)
Definition keys (m : t V) : list string := map fst m.

(** [m.keys().next().value], [None] for [undefined] *)
Definition first_key (m : t V) : option string :=
  match m with
  | [] => None
  | (k, _) :: _ => Some k
  end.

(** [m.entries()], in iteration order *)
Definition entries (m : t V) : list (string * V) := m.

(** A [Map] holds each key once. *)
Definition wf (m : t V) : Prop := NoDup (keys m).

End Ops.

End JSMap.

(* ================================================================== *)
(** * Configuration                                                    *)
(* ================================================================== *)

Module CACHE_CONFIG.
Definition CURRENT_PRICE_TTL : Z := 5 * 60 * 1000.
Definition HISTORICAL_DATA_TTL : Z := 30 * 60 * 1000.
Definition DATE_SPECIFIC_TTL : Z := 24 * 60 * 60 * 1000.
Definition MAX_CACHE_SIZE : nat := 1000.
Definition CLEANUP_INTERVAL : Z := 60 * 60 * 1000.
End CACHE_CONFIG.

(* ================================================================== *)
(** * [class MemoryCache]                                              *)
(* ================================================================== *)

(** [interface CacheEntry<T>] *)
Record CacheEntry (T : Type) : Type := mkCacheEntry {
  data : T;
  timestamp : Z;
  ttl : Z;
  key : string
}.

Arguments mkCacheEntry {T}.
Arguments data {T}.
Arguments timestamp {T}.
Arguments ttl {T}.
Arguments key {T}.

(** One element of [getStats().entries]. *)
Record EntryStats : Type := mkEntryStats {
  stat_key : string;
  stat_age : Z;
  stat_ttl : Z;
  stat_expired : bool
}.

(** The object returned by [getStats()]. *)
Record Stats : Type := mkStats {
  stats_size : nat;
  stats_maxSize : nat;
  stats_entries : list EntryStats
}.

Module MemoryCache.

Section Methods.
Context {T : Type}.

(** The private field [cache]. *)
Definition Store := JSMap.t (CacheEntry T).

(** A method body: it reads and writes [this.cache]. *)
Definition Method (A : Type) := Store -> A * Store.

Definition ret {A} (a : A) : Method A := fun m => (a, m).

Definition bind {A B} (c : Method A) (f : A -> Method B) : Method B :=
  fun m => let (a, m') := c m in f a m'.

Definition cache_size : Method nat := fun m => (JSMap.size m, m).
Definition cache_first_key : Method (option string) :=
  fun m => (JSMap.first_key m, m).
Definition cache_get (k : string) : Method (option (CacheEntry T)) :=
  fun m => (JSMap.get k m, m).
Definition cache_entries : Method (list (string * CacheEntry T)) :=
  fun m => (JSMap.entries m, m).
Definition cache_set (k : string) (e : CacheEntry T) : Method unit :=
  fun m => (tt, JSMap.set k e m).
Definition cache_delete (k : string) : Method unit :=
  fun m => (tt, JSMap.delete k m).
Definition cache_clear : Method unit := fun m => (tt, JSMap.clear m).

(** [keys.forEach((key) => body(key))] *)
Fixpoint forEach {A} (l : list A) (body : A -> Method unit) : Method unit :=
  match l with
  | [] => ret tt
  | a :: rest => bind (body a) (fun _ => forEach rest body)
  end.

(** [now - entry.timestamp > entry.ttl] *)
Definition expired (now : Z) (e : CacheEntry T) : bool :=
  now - timestamp e >? ttl e.

Local Notation "x <- c ;; k" := (bind c (fun x => k))
  (at level 61, c at next level, right associativity).
Local Notation "c ;;; k" := (bind c (fun _ => k))
  (at level 61, right associativity).

(** [set<T>(key, data, ttl)], with [now] the value of [Date.now()]. *)
Definition set (now : Z) (key : string) (data : T) (ttl : Z) : Method unit :=
  size <- cache_size ;;
  (if (CACHE_CONFIG.MAX_CACHE_SIZE <=? size)%nat then
     oldestKey <- cache_first_key ;;
     match oldestKey with
     | Some k => if truthy_string k then cache_delete k else ret tt
     | None => ret tt
     end
   else ret tt) ;;;
  cache_set key (mkCacheEntry data now ttl key).

(** [get<T>(key)], [None] for [null]. *)
Definition get (now : Z) (key : string) : Method (option T) :=
  entry <- cache_get key ;;
  match entry with
  | None => ret None
  | Some e =>
      if expired now e then cache_delete key ;;; ret None
      else ret (Some (data e))
  end.

(** [has(key)] *)
Definition has (now : Z) (key : string) : Method bool :=
  entry <- cache_get key ;;
  match entry with
  | None => ret false
  | Some e =>
      if expired now e then cache_delete key ;;; ret false
      else ret true
  end.

(** [delete(key)] *)
Definition delete (key : string) : Method unit := cache_delete key.

(** [clear()] *)
Definition clear : Method unit := cache_clear.

(** [cleanup()]: [now] is read once, the expired keys are collected in
    iteration order and then deleted one by one. *)
Definition cleanup (now : Z) : Method unit :=
  entries <- cache_entries ;;
  let keysToDelete :=
    map fst (filter (fun p => expired now (snd p)) entries) in
  forEach keysToDelete cache_delete.

(** [Array.prototype.map] with the index of the element. *)
Fixpoint mapi_from {A B} (i : nat) (f : nat -> A -> B) (l : list A) : list B :=
  match l with
  | [] => []
  | a :: rest => f i a :: mapi_from (S i) f rest
  end.

(** [getStats()]. The callback reads [Date.now()] twice per entry:
    [clock n] is the [n]-th reading of the call. *)
Definition getStats (clock : nat -> Z) : Method Stats :=
  size <- cache_size ;;
  entries <- cache_entries ;;
  ret (mkStats size CACHE_CONFIG.MAX_CACHE_SIZE
         (mapi_from 0
            (fun i p =>
               mkEntryStats (fst p)
                 (clock (2 * i)%nat - timestamp (snd p))
                 (ttl (snd p))
                 (clock (2 * i + 1)%nat - timestamp (snd p) >? ttl (snd p)))
            entries)).

End Methods.

Arguments Store : clear implicits.
Arguments Method : clear implicits.

End MemoryCache.

(** A client of the cache: one call of a public method (or one tick of the
    cleanup timer), and the store after a sequence of them; each call comes
    with the clock reading it sees. *)
Inductive CacheCall (T : Type) : Type :=
| CallSet (key : string) (data : T) (ttl : Z)
| CallGet (key : string)
| CallHas (key : string)
| CallDelete (key : string)
| CallClear
| CallCleanup.

Arguments CallSet {T}.
Arguments CallGet {T}.
Arguments CallHas {T}.
Arguments CallDelete {T}.
Arguments CallClear {T}.
Arguments CallCleanup {T}.

Definition call {T} (now : Z) (c : CacheCall T)
  (m : MemoryCache.Store T) : MemoryCache.Store T :=
  match c with
  | CallSet k d t => snd (MemoryCache.set now k d t m)
  | CallGet k => snd (MemoryCache.get now k m)
  | CallHas k => snd (MemoryCache.has now k m)
  | CallDelete k => snd (MemoryCache.delete k m)
  | CallClear => snd (MemoryCache.clear m)
  | CallCleanup => snd (MemoryCache.cleanup now m)
  end.

Fixpoint calls {T} (cs : list (Z * CacheCall T))
  (m : MemoryCache.Store T) : MemoryCache.Store T :=
  match cs with
  | [] => m
  | (now, c) :: rest => calls rest (call now c m)
  end.

(** The keys of the calls that are [set]s. *)
Fixpoint set_keys {T} (cs : list (Z * CacheCall T)) : list string :=
  match cs with
  | [] => []
  | (_, CallSet k _ _) :: rest => k :: set_keys rest
  | _ :: rest => set_keys rest
  end.

(* ================================================================== *)
(** * Upstream records                                                 *)
(* ================================================================== *)

(** [interface FMPHistoricalData] *)
Module FMPHistoricalData.
Record t : Type := mk {
  date : string;
  open : number;
  high : number;
  low : number;
  close : number;
  adjClose : number;
  volume : number;
  unadjustedVolume : number;
  change : number;
  changePercent : number;
  vwap : number;
  label : string;
  changeOverTime : number
}.
End FMPHistoricalData.

(** [interface FMPQuote] *)
Module FMPQuote.
Record t : Type := mk {
  symbol : string;
  name : string;
  price : number;
  changesPercentage : number;
  change : number;
  dayLow : number;
  dayHigh : number;
  yearHigh : number;
  yearLow : number;
  marketCap : number;
  priceAvg50 : number;
  priceAvg200 : number;
  volume : number;
  avgVolume : number;
  exchange : string;
  open : number;
  previousClose : number;
  timestamp : number
}.
End FMPQuote.

(** What the one [cache] object holds: the three fetch helpers store a
    quote, a list of historical records, or one historical record. Each is a
    JavaScript object or array, hence truthy: [if (cachedData)] is the test
    that [cache.get] did not return [null]. *)
Inductive Payload : Type :=
| QuotePayload (q : FMPQuote.t)
| SeriesPayload (l : list FMPHistoricalData.t)
| PointPayload (p : FMPHistoricalData.t).

(** [type WeightUnit = keyof typeof UNIT_CONVERSIONS] *)
Inductive WeightUnit : Type := oz | g | kg.

Definition getUnitLabel (unit : WeightUnit) : string :=
  match unit with
  | oz => "per troy ounce"
  | g => "per gram"
  | kg => "per kilogram"
  end.

(* ================================================================== *)
(** * The server: fetch helpers and the current-price handler          *)
(* ================================================================== *)

Module Server.

(** The two instruments queried at financialmodelingprep.com. *)
Inductive Symbol : Type := GLD | GCUSD.

(** An upstream request: [/quote/<symbol>] or
    [/historical-price-full/<symbol>?from=..&to=..]. *)
Inductive Request : Type :=
| QuoteRequest (s : Symbol)
| HistoricalRequest (s : Symbol) (from to : string).

(** The [data] of a historical response, by the shapes the code tells
    apart: an array of records; an object, with the array its
    [historical] field holds ([None] when the field is missing or falsy);
    a falsy value. The upstream contract ([FMPHistoricalData[]]) leaves
    out an object whose [historical] is truthy and not an array. *)
Inductive Body : Type :=
| BodyArray (records : list FMPHistoricalData.t)
| BodyObject (historical : option (list FMPHistoricalData.t))
| BodyFalsy.

(** The [data] of a quote response: an array of records; [null] or
    [undefined], on which reading a property throws; or another value
    that has no property [0] (an object such as an error payload, a
    number, a boolean, the empty string). The upstream contract
    ([FMPQuote[]]) leaves out a non-empty string and an array that starts
    with something else than a record. *)
Inductive QuoteBody : Type :=
| QuoteArray (records : list FMPQuote.t)
| QuoteNullish
| QuoteOther.

(** How a promise of [axios.get] settles. *)
Inductive Settled (A : Type) : Type :=
| Fulfilled (value : A)
| Rejected.
Arguments Fulfilled {A}.
Arguments Rejected {A}.

(** The upstream service and the platform around one run: what each
    request issued at a given time answers and how long it takes; the
    date window [getDateRange] computes with the [Date] arithmetic of
    the platform from the time of the call and the timeframe; and, for
    the synchronous code of a route handler, how far the clock has moved
    on from one reading of [Date.now()] when it is read the next time. *)
Record Environment : Type := mkEnvironment {
  quote : Z -> Symbol -> Settled QuoteBody;
  historical_price_full : Z -> Symbol -> string -> string -> Settled Body;
  latency : Z -> Request -> Z;
  getDateRange : Z -> string -> string * string;
  pause : Z -> Z
}.

(** What a call can throw: [new Error(message)], the rejection of an
    upstream request, or the [TypeError] of reading a property of [null]
    or [undefined]. *)
Inductive Error : Type :=
| JsError (message : string)
| AxiosError (r : Request)
| TypeError.

Inductive Outcome (A : Type) : Type :=
| Returned (a : A)
| Thrown (e : Error).
Arguments Returned {A}.
Arguments Thrown {A}.

(** The state a call runs in: the module-level [cache], the clock, and
    the upstream requests issued so far, oldest first. *)
Record World : Type := mkWorld {
  cache : MemoryCache.Store Payload;
  clock : Z;
  requests : list Request
}.

(** Time passing between two calls. *)
Definition advance (d : Z) (w : World) : World :=
  mkWorld (cache w) (clock w + d) (requests w).

Definition Async (A : Type) := World -> Outcome A * World.

Definition ret {A} (a : A) : Async A := fun w => (Returned a, w).

Definition throw {A} (e : Error) : Async A := fun w => (Thrown e, w).

Definition bind {A B} (c : Async A) (f : A -> Async B) : Async B :=
  fun w =>
    match c w with
    | (Returned a, w') => f a w'
    | (Thrown e, w') => (Thrown e, w')
    end.

(** [try { c } catch (error) { handler }] *)
Definition try_catch {A} (c : Async A) (handler : Error -> Async A) : Async A :=
  fun w =>
    match c w with
    | (Returned a, w') => (Returned a, w')
    | (Thrown e, w') => handler e w'
    end.

(** A method of [cache], run at the current clock reading. *)
Definition on_cache {A} (method : Z -> MemoryCache.Method Payload A) : Async A :=
  fun w =>
    let (a, m) := method (clock w) (cache w) in
    (Returned a, mkWorld m (clock w) (requests w)).

Definition Date_now : Async Z := fun w => (Returned (clock w), w).

Module Import Notations.
Notation "x <- c ;; k" := (bind c (fun x => k))
  (at level 61, c at next level, right associativity).
Notation "c ;;; k" := (bind c (fun _ => k))
  (at level 61, right associativity).
End Notations.

(** The JSON of [GET /api/gold/current]: [source] is the [goldData]
    whose prices the handler converts to [unitCode]; [cached] is the
    field of that name. *)
Record CurrentBody : Type := mkCurrentBody {
  source : Payload;
  unit_ : string;
  unitCode : WeightUnit;
  cached : bool
}.

Inductive HttpResponse : Type :=
| Json200 (body : CurrentBody)
| Json500 (error : string) (cause : Error).

Section Run.
Variable env : Environment.

(** [await axios.get(`${FMP_BASE_URL}/quote/<s>`)] *)
Definition await_quote (s : Symbol) : Async QuoteBody :=
  fun w =>
    let r := QuoteRequest s in
    let w' := mkWorld (cache w) (clock w + latency env (clock w) r)
                (requests w ++ [r]) in
    match quote env (clock w) s with
    | Fulfilled d => (Returned d, w')
    | Rejected => (Thrown (AxiosError r), w')
    end.

(** [await axios.get(`${FMP_BASE_URL}/historical-price-full/<s>`,
    { params: { from, to } })] *)
Definition await_historical (s : Symbol) (from to : string) : Async Body :=
  fun w =>
    let r := HistoricalRequest s from to in
    let w' := mkWorld (cache w) (clock w + latency env (clock w) r)
                (requests w ++ [r]) in
    match historical_price_full env (clock w) s from to with
    | Fulfilled d => (Returned d, w')
    | Rejected => (Thrown (AxiosError r), w')
    end.

(** [await Promise.allSettled([axios.get(.../quote/<a>),
    axios.get(.../quote/<b>)])]: both requests leave at once, in
    this order, and the call resumes when the slower has settled. *)
Definition await_allSettled_quotes (a b : Symbol)
  : Async (Settled QuoteBody * Settled QuoteBody) :=
  fun w =>
    let ra := QuoteRequest a in
    let rb := QuoteRequest b in
    (Returned (quote env (clock w) a, quote env (clock w) b),
     mkWorld (cache w)
       (clock w + Z.max (latency env (clock w) ra) (latency env (clock w) rb))
       (requests w ++ [ra; rb])).

(** [response.status === 'fulfilled' && response.value.data[0]], as the
    condition of an [if]: the first record when the request is fulfilled
    with a non-empty array; nothing when it is rejected, or fulfilled
    with an empty array or a value without a property [0]. The access
    [data[0]] is not guarded: on a fulfilled [null] or [undefined] it
    throws. *)
Definition fulfilled_first_record (response : Settled QuoteBody)
  : Async (option FMPQuote.t) :=
  match response with
  | Rejected => ret None
  | Fulfilled (QuoteArray (q :: _)) => ret (Some q)
  | Fulfilled (QuoteArray []) => ret None
  | Fulfilled QuoteOther => ret None
  | Fulfilled QuoteNullish => throw TypeError
  end.

(** The next reading of the clock in the synchronous code of a handler. *)
Definition tick : Async unit :=
  fun w =>
    (Returned tt,
     mkWorld (cache w) (clock w + pause env (clock w)) (requests w)).

(** [fetchCurrentGoldPrice()] *)
Definition fetchCurrentGoldPrice : Async Payload :=
  let cacheKey := "current_gold_price" in
  cachedData <- on_cache (fun now => MemoryCache.get now cacheKey) ;;
  match cachedData with
  | Some d => ret d
  | None =>
      responses <- await_allSettled_quotes GLD GCUSD ;;
      let (gldResponse, goldResponse) := responses in
      goldData <-
        (fromGold <- fulfilled_first_record goldResponse ;;
         match fromGold with
         | Some q => ret (Some q)
         | None => fulfilled_first_record gldResponse
         end) ;;
      match goldData with
      | None => throw (JsError "No gold data available from API")
      | Some q =>
          on_cache (fun now =>
            MemoryCache.set now cacheKey (QuotePayload q)
              CACHE_CONFIG.CURRENT_PRICE_TTL) ;;;
          ret (QuotePayload q)
      end
  end.

(** The two [if]/[else if] of [fetchHistoricalData] that assign
    [historicalData] from [response.data]. *)
Definition assign_historical (body : Body)
  (historicalData : list FMPHistoricalData.t) : list FMPHistoricalData.t :=
  match body with
  | BodyArray records => records
  | BodyObject (Some historical) => historical
  | BodyObject None => historicalData
  | BodyFalsy => historicalData
  end.

(** [fetchHistoricalData(timeframe)] *)
Definition fetchHistoricalData (timeframe : string) : Async Payload :=
  let cacheKey := "historical_" ++ timeframe in
  cachedData <- on_cache (fun now => MemoryCache.get now cacheKey) ;;
  match cachedData with
  | Some d => ret d
  | None =>
      now <- Date_now ;;
      let (start, end_) := getDateRange env now timeframe in
      historicalData <-
        try_catch
          (response <- await_historical GCUSD start end_ ;;
           ret (assign_historical response []))
          (fun _ =>
             response <- await_historical GLD start end_ ;;
             ret (assign_historical response [])) ;;
      match historicalData with
      | [] => throw (JsError "No historical data available from API")
      | _ :: _ =>
          on_cache (fun now =>
            MemoryCache.set now cacheKey (SeriesPayload historicalData)
              CACHE_CONFIG.HISTORICAL_DATA_TTL) ;;;
          ret (SeriesPayload historicalData)
      end
  end.

(** [fetchDateSpecificData(date)] *)
Definition fetchDateSpecificData (date : string) : Async Payload :=
  let cacheKey := "date_" ++ date in
  cachedData <- on_cache (fun now => MemoryCache.get now cacheKey) ;;
  match cachedData with
  | Some d => ret d
  | None =>
      response <- await_historical GCUSD date date ;;
      let dateData :=
        match response with
        | BodyObject (Some historical) => hd_error historical
        | BodyArray records => hd_error records
        | BodyObject None => None
        | BodyFalsy => None
        end in
      match dateData with
      | None => throw (JsError ("No data found for date " ++ date))
      | Some p =>
          on_cache (fun now =>
            MemoryCache.set now cacheKey (PointPayload p)
              CACHE_CONFIG.DATE_SPECIFIC_TTL) ;;;
          ret (PointPayload p)
      end
  end.

(** The handler of [GET /api/gold/current], once [validateUnit] has
    accepted the unit. [cache.has] reads the clock anew, after the
    readings of the fetch. *)
Definition get_api_gold_current (targetUnit : WeightUnit)
  : World -> HttpResponse * World :=
  fun w =>
    let run :=
      goldData <- fetchCurrentGoldPrice ;;
      tick ;;;
      cached <- on_cache (fun now => MemoryCache.has now "current_gold_price") ;;
      ret (mkCurrentBody goldData (getUnitLabel targetUnit) targetUnit cached) in
    match run w with
    | (Returned body, w') => (Json200 body, w')
    | (Thrown e, w') => (Json500 "Failed to fetch current gold price" e, w')
    end.

End Run.

End Server.

(* ================================================================== *)
(** * Two more routes: the date lookup and the cache reset             *)
(* ================================================================== *)

Module Routes.

Import Server.
Import Server.Notations.

(** [\d] of a JavaScript regular expression: the ASCII digits. *)
Definition is_digit (c : ascii) : bool :=
  (48 <=? nat_of_ascii c)%nat && (nat_of_ascii c <=? 57)%nat.

(** [/^\d{4}-\d{2}-\d{2}$/.test(date)] *)
Definition dateRegex_test (date : string) : bool :=
  match list_ascii_of_string date with
  | [y1; y2; y3; y4; h1; m1; m2; h2; d1; d2] =>
      is_digit y1 && is_digit y2 && is_digit y3 && is_digit y4
      && Ascii.eqb h1 "-"
      && is_digit m1 && is_digit m2
      && Ascii.eqb h2 "-"
      && is_digit d1 && is_digit d2
  | _ => false
  end.

(** The JSON of [GET /api/gold/date/:date]: [source] is the [dateData]
    whose prices the handler converts to [unitCode]. *)
Record DateBody : Type := mkDateBody {
  date_source : Payload;
  date : string;
  date_unitCode : WeightUnit;
  date_unitLabel : string;
  date_timestamp : Z;
  date_cached : bool
}.

Inductive DateResponse : Type :=
| DateJson200 (body : DateBody)
| DateJson400 (error message : string)
| DateJson500 (error : string) (cause : Error).

(** The handler of [GET /api/gold/date/:date], once [validateUnit] has
    accepted the unit. [Date.now()] for the timestamp and [cache.has]
    each read the clock anew. *)
Definition get_api_gold_date (env : Environment) (targetUnit : WeightUnit)
  (date : string) : World -> DateResponse * World :=
  fun w =>
    if negb (dateRegex_test date) then
      (DateJson400 "Invalid date format" "Date must be in YYYY-MM-DD format", w)
    else
      let run :=
        dateData <- fetchDateSpecificData env date ;;
        tick env ;;;
        timestamp <- Date_now ;;
        tick env ;;;
        cached <- on_cache (fun now => MemoryCache.has now ("date_" ++ date)) ;;
        ret (mkDateBody dateData date targetUnit (getUnitLabel targetUnit)
               timestamp cached) in
      match run w with
      | (Returned body, w') => (DateJson200 body, w')
      | (Thrown e, w') =>
          (DateJson500 "Failed to fetch gold price for specified date" e, w')
      end.

(** The handler of [POST /api/cache/clear]; it answers with this
    message. *)
Definition post_api_cache_clear : World -> string * World :=
  fun w =>
    match on_cache (fun _ => MemoryCache.clear) w with
    | (_, w') => ("Cache cleared successfully", w')
    end.

End Routes.

(* ================================================================== *)
(** * Auxiliary definitions for the statements                         *)
(* ================================================================== *)

(** Every key of the store is a truthy string. *)
Definition keys_truthy {T} (m : MemoryCache.Store T) : Prop :=
  Forall (fun p => truthy_string (fst p) = true) m.

Ltac unfold_async :=
  unfold Server.bind, Server.ret, Server.throw, Server.on_cache,
    Server.try_catch, Server.Date_now, Server.await_allSettled_quotes,
    Server.await_historical, Server.await_quote in *.

(** The world a fetch helper continues in after a cache miss: the store
    as [cache.get] left it, the same clock, no request yet. *)
Definition after_miss (key : string) (w : Server.World) : Server.World :=
  Server.mkWorld (snd (MemoryCache.get (Server.clock w) key (Server.cache w)))
    (Server.clock w) (Server.requests w).

(** The world after [cache.set(key, p, ttl)]. *)
Definition after_set (key : string) (p : Payload) (ttl : Z) (w : Server.World)
  : Server.World :=
  Server.mkWorld
    (snd (MemoryCache.set (Server.clock w) key p ttl (Server.cache w)))
    (Server.clock w) (Server.requests w).

(** The world after an upstream exchange that took [d] ms. *)
Definition after_requests (rs : list Server.Request) (d : Z) (w : Server.World)
  : Server.World :=
  Server.mkWorld (Server.cache w) (Server.clock w + d)
    (Server.requests w ++ rs).

(** What [fetchCurrentGoldPrice] makes of the two settled requests: the
    quote it selects, nothing, or the error of reading [data[0]]. *)
Definition selected_quote (gldResponse goldResponse : Server.Settled Server.QuoteBody)
  : Server.Outcome (option FMPQuote.t) :=
  match goldResponse with
  | Server.Fulfilled (Server.QuoteArray (q :: _)) => Server.Returned (Some q)
  | Server.Fulfilled Server.QuoteNullish => Server.Thrown Server.TypeError
  | _ =>
      match gldResponse with
      | Server.Fulfilled (Server.QuoteArray (q :: _)) => Server.Returned (Some q)
      | Server.Fulfilled Server.QuoteNullish => Server.Thrown Server.TypeError
      | _ => Server.Returned None
      end
  end.

(** What [fetchHistoricalData] does with the list it has after the
    attempted calls, in the world [w]. *)
Definition conclude_historical (key : string)
  (historicalData : list FMPHistoricalData.t) (w : Server.World)
  : Server.Outcome Payload * Server.World :=
  match historicalData with
  | [] => (Server.Thrown (Server.JsError "No historical data available from API"), w)
  | _ :: _ =>
      (Server.Returned (SeriesPayload historicalData),
       after_set key (SeriesPayload historicalData)
         CACHE_CONFIG.HISTORICAL_DATA_TTL w)
  end.

(** The store a fetch helper leaves is the store after its [cache.get],
    with the entry of one [cache.set] under its key when it returns
    fresh data, and as it is when it throws. *)
Definition store_after_fetch (key : string) (ttl : Z) (w : Server.World)
  (r : Server.Outcome Payload * Server.World) : Prop :=
  let m := snd (MemoryCache.get (Server.clock w) key (Server.cache w)) in
  match fst r with
  | Server.Thrown _ =>
      Server.cache (snd r) = m
      /\ fst (MemoryCache.get (Server.clock w) key (Server.cache w)) = None
  | Server.Returned p =>
      Server.cache (snd r) = m
      \/ Server.cache (snd r)
         = snd (MemoryCache.set (Server.clock (snd r)) key p ttl m)
  end.

(** The clock reading of a handler that follows the reading [t]. *)
Definition next_reading (env : Server.Environment) (t : Z) : Z :=
  t + Server.pause env t.

(** Two stores give every [get] at time [now] or later the same result. *)
Definition same_reads {T} (now : Z) (m1 m2 : MemoryCache.Store T) : Prop :=
  forall k t,
    now <= t -> fst (MemoryCache.get t k m1) = fst (MemoryCache.get t k m2).

(** Whether the strings of a list are pairwise distinct. *)
Fixpoint distinct_strings (l : list string) : bool :=
  match l with
  | [] => true
  | x :: rest => negb (existsb (String.eqb x) rest) && distinct_strings rest
  end.

(* ================================================================== *)
(** * Concrete stores, calls and environments                          *)
(* ================================================================== *)

Module Examples.

(** The decimal numeral of [n], as a key. *)
Definition key_of (n : nat) : string := NilEmpty.string_of_uint (Nat.to_uint n).

(** [set(key_of i, i, 60000)] for [i] from [0] to [n - 1], all at time [0]. *)
Definition fill (n : nat) : list (Z * CacheCall nat) :=
  map (fun i => (0, CallSet (key_of i) i 60000)) (seq 0 n).

(** A store at capacity: the keys ["0"] to ["999"], in this order. *)
Definition full_store : MemoryCache.Store nat :=
  calls (fill CACHE_CONFIG.MAX_CACHE_SIZE) [].

(** [set("", 0, 60000)] and then the thousand calls of [fill]. *)
Definition overflow_calls : list (Z * CacheCall nat) :=
  (0, CallSet "" 0%nat 60000) :: fill CACHE_CONFIG.MAX_CACHE_SIZE.

(** The store after [set("k", 100, 1000)] at time [0] and
    [set("j", 7, 5000)] at time [200]. *)
Definition two_entries : MemoryCache.Store nat :=
  calls [(0, CallSet "k" 100%nat 1000); (200, CallSet "j" 7%nat 5000)] [].

(** A spot-gold quote and a quote of the GLD fund. *)
Definition spot_quote : FMPQuote.t :=
  FMPQuote.mk "GCUSD" "Gold Futures" 2345.5%float 0.5%float 11.75%float
    2330.25%float 2350.75%float 2450%float 1810%float 0%float 2300.25%float
    2100.5%float 1500%float 1800%float "COMMODITY" 2333.75%float 2333.75%float
    1717171717%float.

Definition gld_quote : FMPQuote.t :=
  FMPQuote.mk "GLD" "SPDR Gold Shares" 216.5%float 0.25%float 0.75%float
    215.25%float 217%float 225%float 168%float 56000000000%float 212%float
    195%float 7000000%float 8000000%float "AMEX" 215.5%float 215.5%float
    1717171717%float.

(** One day of historical data. *)
Definition day_record : FMPHistoricalData.t :=
  FMPHistoricalData.mk "2024-05-31" 2340%float 2351%float 2325%float
    2345.5%float 2345.5%float 1500%float 1500%float 5.5%float 0.25%float
    2340.5%float "May 31, 24" 0.0625%float.

(** An upstream that answers the same at all times, each request after
    40 ms, a platform whose date window is fixed, and handlers that read
    the same time at every reading. *)
Definition env_of_bodies (spot gld : Server.Settled Server.QuoteBody)
  (spot_history gld_history : Server.Settled Server.Body) : Server.Environment :=
  Server.mkEnvironment
    (fun _ s => match s with Server.GCUSD => spot | Server.GLD => gld end)
    (fun _ s _ _ =>
       match s with Server.GCUSD => spot_history | Server.GLD => gld_history end)
    (fun _ _ => 40)
    (fun _ _ => ("2024-05-01", "2024-05-31"))
    (fun _ => 0).

(** A quote request fulfilled with an array of records, or rejected. *)
Definition with_records (r : Server.Settled (list FMPQuote.t))
  : Server.Settled Server.QuoteBody :=
  match r with
  | Server.Fulfilled records => Server.Fulfilled (Server.QuoteArray records)
  | Server.Rejected => Server.Rejected
  end.

Definition env_of (spot gld : Server.Settled (list FMPQuote.t))
  (spot_history gld_history : Server.Settled Server.Body) : Server.Environment :=
  env_of_bodies (with_records spot) (with_records gld) spot_history gld_history.

(** Spot gold answers with data, the GLD requests are rejected. *)
Definition env_spot : Server.Environment :=
  env_of (Server.Fulfilled [spot_quote]) Server.Rejected
    (Server.Fulfilled (Server.BodyObject (Some [day_record]))) Server.Rejected.

(** Spot gold answers with nothing (an empty list, an object without
    [historical]); GLD answers with data. *)
Definition env_spot_empty : Server.Environment :=
  env_of (Server.Fulfilled []) (Server.Fulfilled [gld_quote])
    (Server.Fulfilled (Server.BodyObject None))
    (Server.Fulfilled (Server.BodyArray [day_record])).

(** The spot-gold requests are rejected; GLD answers with data. *)
Definition env_spot_down : Server.Environment :=
  env_of Server.Rejected (Server.Fulfilled [gld_quote])
    Server.Rejected (Server.Fulfilled (Server.BodyArray [day_record])).

(** Nothing usable from either source. *)
Definition env_no_data : Server.Environment :=
  env_of (Server.Fulfilled []) Server.Rejected
    (Server.Fulfilled Server.BodyFalsy) Server.Rejected.

(** Spot gold answers with the body [null]; GLD answers with data. *)
Definition env_spot_null : Server.Environment :=
  env_of_bodies (Server.Fulfilled Server.QuoteNullish)
    (Server.Fulfilled (Server.QuoteArray [gld_quote]))
    (Server.Fulfilled Server.BodyFalsy)
    (Server.Fulfilled (Server.BodyArray [day_record])).

(** Spot gold answers with an error object; GLD answers with data. *)
Definition env_spot_error_object : Server.Environment :=
  env_of_bodies (Server.Fulfilled Server.QuoteOther)
    (Server.Fulfilled (Server.QuoteArray [gld_quote]))
    (Server.Fulfilled (Server.BodyObject None))
    (Server.Fulfilled (Server.BodyArray [day_record])).

(** As [env_spot], but a handler reads the clock one millisecond later
    each time. *)
Definition env_spot_ticking : Server.Environment :=
  Server.mkEnvironment (Server.quote env_spot)
    (Server.historical_price_full env_spot) (Server.latency env_spot)
    (Server.getDateRange env_spot) (fun _ => 1).

(** A server that has just started: nothing cached, nothing requested. *)
Definition world0 : Server.World := Server.mkWorld [] 0 [].

End Examples.

(* ================================================================== *)
(** * Facts about [JSMap]                                              *)
(* ================================================================== *)

Section JSMapFacts.
Context {V : Type}.
Implicit Types (m : JSMap.t V) (k : string) (v : V).

Lemma JSMap_get_set_same k v m : JSMap.get k (JSMap.set k v m) = Some v.
Proof.
  induction m as [|[k' v'] rest IH]; simpl.
  - now rewrite String.eqb_refl.
  - destruct (String.eqb k k') eqn:E; simpl; rewrite ?String.eqb_refl, ?E; auto.
Qed.

Lemma JSMap_get_set_other k k' v m :
  k' <> k -> JSMap.get k' (JSMap.set k v m) = JSMap.get k' m.
Proof.
  intros Hne. apply String.eqb_neq in Hne.
  induction m as [|[k0 v0] rest IH]; simpl.
  - now rewrite Hne.
  - destruct (String.eqb k k0) eqn:E; simpl.
    + apply String.eqb_eq in E. subst k0. now rewrite Hne.
    + now rewrite IH.
Qed.

Lemma JSMap_get_delete_same k m : JSMap.get k (JSMap.delete k m) = None.
Proof.
  induction m as [|[k' v'] rest IH]; simpl; auto.
  destruct (String.eqb k k') eqn:E; simpl; rewrite ?E; auto.
Qed.

Lemma JSMap_get_delete_other k k' m :
  k' <> k -> JSMap.get k' (JSMap.delete k m) = JSMap.get k' m.
Proof.
  intros Hne.
  induction m as [|[k0 v0] rest IH]; simpl; auto.
  destruct (String.eqb k k0) eqn:E; simpl.
  - apply String.eqb_eq in E. subst k0.
    apply String.eqb_neq in Hne. now rewrite Hne.
  - now rewrite IH.
Qed.

Lemma JSMap_get_none_not_in k m :
  JSMap.get k m = None <-> ~ In k (JSMap.keys m).
Proof.
  induction m as [|[k' v'] rest IH]; simpl.
  - tauto.
  - destruct (String.eqb_spec k k') as [->|Hne].
    + split; [discriminate | intros H; exfalso; apply H; now left].
    + rewrite IH. split; intros H; [intros [E|I]; [congruence | tauto] | tauto].
Qed.

Lemma JSMap_get_some_in k v m : JSMap.get k m = Some v -> In (k, v) m.
Proof.
  induction m as [|[k' v'] rest IH]; simpl; [discriminate|].
  destruct (String.eqb_spec k k') as [->|Hne].
  - intros [= ->]. now left.
  - intros H. right. auto.
Qed.

Lemma JSMap_in_get_some k v m : JSMap.wf m -> In (k, v) m -> JSMap.get k m = Some v.
Proof.
  unfold JSMap.wf.
  induction m as [|[k' v'] rest IH]; simpl; [tauto|].
  intros Hnd [E|I].
  - injection E as -> ->. now rewrite String.eqb_refl.
  - inversion Hnd as [|? ? Hnotin Hnd']; subst.
    destruct (String.eqb_spec k k') as [->|Hne]; auto.
    exfalso. apply Hnotin. change (In (fst (k', v)) (map fst rest)).
    now apply in_map.
Qed.

Lemma JSMap_keys_delete k m :
  JSMap.keys (JSMap.delete k m) =
  filter (fun k' => negb (String.eqb k k')) (JSMap.keys m).
Proof.
  induction m as [|[k' v'] rest IH]; simpl; auto.
  destruct (String.eqb k k'); simpl; now rewrite <- ?IH.
Qed.

Lemma JSMap_wf_delete k m : JSMap.wf m -> JSMap.wf (JSMap.delete k m).
Proof.
  unfold JSMap.wf. rewrite JSMap_keys_delete. apply NoDup_filter.
Qed.

Lemma JSMap_keys_set k v m :
  JSMap.keys (JSMap.set k v m) =
  if JSMap.has k m then JSMap.keys m else (JSMap.keys m ++ [k])%list.
Proof.
  unfold JSMap.has.
  induction m as [|[k' v'] rest IH]; simpl; auto.
  destruct (String.eqb_spec k k') as [->|Hne]; simpl; auto.
  rewrite IH. now destruct (JSMap.get k rest).
Qed.

Lemma JSMap_wf_set k v m : JSMap.wf m -> JSMap.wf (JSMap.set k v m).
Proof.
  unfold JSMap.wf. intros Hnd. rewrite JSMap_keys_set. unfold JSMap.has.
  destruct (JSMap.get k m) eqn:E; auto.
  apply JSMap_get_none_not_in in E.
  apply NoDup_app; auto.
  - constructor; [intros []|constructor].
  - intros x Hx [<-|[]]. contradiction.
Qed.

Lemma JSMap_size_set k v m :
  JSMap.size (JSMap.set k v m) =
  if JSMap.has k m then JSMap.size m else S (JSMap.size m).
Proof.
  unfold JSMap.size.
  rewrite <- (length_map fst (JSMap.set k v m)), <- (length_map fst m).
  fold (JSMap.keys (JSMap.set k v m)). fold (JSMap.keys m).
  rewrite JSMap_keys_set. destruct (JSMap.has k m); auto.
  rewrite length_app. simpl. lia.
Qed.

Lemma JSMap_delete_absent k m : JSMap.get k m = None -> JSMap.delete k m = m.
Proof.
  induction m as [|[k' v'] rest IH]; simpl; auto.
  destruct (String.eqb k k') eqn:E; [discriminate|].
  intros H. simpl. now rewrite IH.
Qed.

Lemma JSMap_size_delete_le k m : (JSMap.size (JSMap.delete k m) <= JSMap.size m)%nat.
Proof. apply filter_length_le. Qed.

Lemma JSMap_size_delete_present k v m :
  JSMap.wf m -> JSMap.get k m = Some v ->
  S (JSMap.size (JSMap.delete k m)) = JSMap.size m.
Proof.
  unfold JSMap.wf, JSMap.size.
  induction m as [|[k' v'] rest IH]; simpl; [discriminate|].
  intros Hnd. inversion Hnd as [|? ? Hnotin Hnd']; subst.
  destruct (String.eqb_spec k k') as [->|Hne]; simpl.
  - intros _. f_equal.
    apply JSMap_get_none_not_in in Hnotin.
    apply JSMap_delete_absent in Hnotin.
    fold (JSMap.delete k' rest). now rewrite Hnotin.
  - intros H. f_equal. now apply IH.
Qed.

Lemma JSMap_delete_first k v m :
  JSMap.wf ((k, v) :: m) -> JSMap.delete k ((k, v) :: m) = m.
Proof.
  unfold JSMap.wf. simpl. intros Hnd.
  inversion Hnd as [|? ? Hnotin _]; subst.
  rewrite String.eqb_refl. simpl.
  apply JSMap_delete_absent. now apply JSMap_get_none_not_in.
Qed.

End JSMapFacts.

(* ================================================================== *)
(** * Facts about [MemoryCache]                                        *)
(* ================================================================== *)

Section MemoryCacheFacts.
Context {T : Type}.
Implicit Types (m : MemoryCache.Store T) (k key : string) (e : CacheEntry T).

(** The store [set] writes into: the store itself, or the store without
    its first key when it holds [MAX_CACHE_SIZE] entries or more and that
    key is truthy. *)
Lemma MemoryCache_set_unfold now key (d : T) t m :
  MemoryCache.set now key d t m =
  (tt, JSMap.set key (mkCacheEntry d now t key)
         (if (CACHE_CONFIG.MAX_CACHE_SIZE <=? JSMap.size m)%nat then
            match JSMap.first_key m with
            | Some k0 => if truthy_string k0 then JSMap.delete k0 m else m
            | None => m
            end
          else m)).
Proof.
  unfold MemoryCache.set, MemoryCache.bind, MemoryCache.cache_size,
    MemoryCache.cache_first_key, MemoryCache.cache_set,
    MemoryCache.cache_delete, MemoryCache.ret.
  destruct (CACHE_CONFIG.MAX_CACHE_SIZE <=? JSMap.size m)%nat; auto.
  destruct (JSMap.first_key m) as [k0|]; auto.
  destruct (truthy_string k0); auto.
Qed.

Lemma MemoryCache_get_absent now key m :
  JSMap.get key m = None -> MemoryCache.get now key m = (None, m).
Proof.
  intros H. unfold MemoryCache.get, MemoryCache.bind, MemoryCache.cache_get.
  now rewrite H.
Qed.

Lemma MemoryCache_get_expired now key e m :
  JSMap.get key m = Some e -> MemoryCache.expired now e = true ->
  MemoryCache.get now key m = (None, JSMap.delete key m).
Proof.
  intros H X. unfold MemoryCache.get, MemoryCache.bind, MemoryCache.cache_get.
  now rewrite H, X.
Qed.

Lemma MemoryCache_get_fresh now key e m :
  JSMap.get key m = Some e -> MemoryCache.expired now e = false ->
  MemoryCache.get now key m = (Some (data e), m).
Proof.
  intros H X. unfold MemoryCache.get, MemoryCache.bind, MemoryCache.cache_get.
  now rewrite H, X.
Qed.

Lemma MemoryCache_has_absent now key m :
  JSMap.get key m = None -> MemoryCache.has now key m = (false, m).
Proof.
  intros H. unfold MemoryCache.has, MemoryCache.bind, MemoryCache.cache_get.
  now rewrite H.
Qed.

Lemma MemoryCache_has_expired now key e m :
  JSMap.get key m = Some e -> MemoryCache.expired now e = true ->
  MemoryCache.has now key m = (false, JSMap.delete key m).
Proof.
  intros H X. unfold MemoryCache.has, MemoryCache.bind, MemoryCache.cache_get.
  now rewrite H, X.
Qed.

Lemma MemoryCache_has_fresh now key e m :
  JSMap.get key m = Some e -> MemoryCache.expired now e = false ->
  MemoryCache.has now key m = (true, m).
Proof.
  intros H X. unfold MemoryCache.has, MemoryCache.bind, MemoryCache.cache_get.
  now rewrite H, X.
Qed.

Lemma expired_true now e :
  MemoryCache.expired now e = true <-> now - timestamp e > ttl e.
Proof. unfold MemoryCache.expired. rewrite Z.gtb_ltb, Z.ltb_lt. lia. Qed.

Lemma expired_false now e :
  MemoryCache.expired now e = false <-> now - timestamp e <= ttl e.
Proof. unfold MemoryCache.expired. rewrite Z.gtb_ltb, Z.ltb_ge. lia. Qed.

(** [get] and [has] leave the same store behind. *)
Lemma MemoryCache_has_store now key m :
  snd (MemoryCache.has now key m) = snd (MemoryCache.get now key m).
Proof.
  unfold MemoryCache.has, MemoryCache.get, MemoryCache.bind, MemoryCache.cache_get.
  destruct (JSMap.get key m) as [e|]; auto.
  destruct (MemoryCache.expired now e); auto.
Qed.

(** The store after [get] is the store, or the store without [key]. *)
Lemma MemoryCache_get_store now key m :
  snd (MemoryCache.get now key m) = m \/
  snd (MemoryCache.get now key m) = JSMap.delete key m.
Proof.
  unfold MemoryCache.get, MemoryCache.bind, MemoryCache.cache_get.
  destruct (JSMap.get key m) as [e|]; auto.
  destruct (MemoryCache.expired now e); auto.
Qed.

Lemma filter_twice {A} (f g : A -> bool) (l : list A) :
  filter g (filter f l) = filter (fun x => f x && g x) l.
Proof.
  induction l as [|a l IH]; simpl; auto.
  destruct (f a); simpl; [destruct (g a)|]; now rewrite IH.
Qed.

(** Deleting a list of keys one by one keeps exactly the entries whose key
    is not in the list, in their order. *)
Lemma forEach_delete (ks : list string) m :
  snd (MemoryCache.forEach ks MemoryCache.cache_delete m) =
  filter (fun p => negb (existsb (String.eqb (fst p)) ks)) m.
Proof.
  revert m. induction ks as [|k ks IH]; intros m; simpl.
  - symmetry. apply forallb_filter_id. now apply forallb_forall.
  - unfold MemoryCache.bind, MemoryCache.cache_delete at 1.
    rewrite IH. unfold JSMap.delete. rewrite filter_twice.
    apply filter_ext. intros [k' e']. simpl.
    now rewrite (String.eqb_sym k' k), negb_orb.
Qed.

(** In a well-formed store the sweep is a filter on the expiry test. *)
Lemma MemoryCache_cleanup_filter now m :
  JSMap.wf m ->
  snd (MemoryCache.cleanup now m) =
  filter (fun p => negb (MemoryCache.expired now (snd p))) m.
Proof.
  intros Hwf.
  unfold MemoryCache.cleanup, MemoryCache.bind, MemoryCache.cache_entries,
    JSMap.entries.
  rewrite forEach_delete. apply filter_ext_in. intros [k e] Hin. simpl.
  f_equal.
  destruct (MemoryCache.expired now e) eqn:X.
  - apply existsb_exists. exists k. split; [|apply String.eqb_refl].
    change k with (fst (k, e)). apply in_map. apply filter_In. auto.
  - apply not_true_is_false. intros H.
    apply existsb_exists in H. destruct H as [k' [Hin' E]].
    apply String.eqb_eq in E. subst k'.
    apply in_map_iff in Hin'. destruct Hin' as [[k' e'] [Hk Hf]].
    simpl in Hk. subst k'. apply filter_In in Hf. destruct Hf as [Hin' X'].
    simpl in X'.
    pose proof (JSMap_in_get_some _ _ _ Hwf Hin) as G.
    pose proof (JSMap_in_get_some _ _ _ Hwf Hin') as G'.
    congruence.
Qed.

(** Looking a key up after filtering on the entries. *)
Lemma JSMap_get_filter (f : CacheEntry T -> bool) k m :
  JSMap.wf m ->
  JSMap.get k (filter (fun p => f (snd p)) m) =
  match JSMap.get k m with
  | Some e => if f e then Some e else None
  | None => None
  end.
Proof.
  unfold JSMap.wf.
  induction m as [|[k' e'] rest IH]; simpl; auto.
  intros Hnd. inversion Hnd as [|? ? Hnotin Hnd']; subst.
  destruct (String.eqb_spec k k') as [->|Hne].
  - destruct (f e') eqn:F; simpl.
    + now rewrite String.eqb_refl.
    + apply JSMap_get_none_not_in. intros Hin. apply Hnotin.
      unfold JSMap.keys in Hin. apply in_map_iff in Hin.
      destruct Hin as [p [Hp Hf]]. apply filter_In in Hf.
      rewrite <- Hp. apply in_map. tauto.
  - destruct (f e'); simpl.
    + apply String.eqb_neq in Hne. rewrite Hne. auto.
    + auto.
Qed.

Lemma mapi_from_keys {B} (f : nat -> string * B -> EntryStats) i (l : list (string * B)) :
  (forall j p, stat_key (f j p) = fst p) ->
  map stat_key (MemoryCache.mapi_from i f l) = map fst l.
Proof.
  intros Hf. revert i. induction l as [|p l IH]; intros i; simpl; auto.
  now rewrite Hf, IH.
Qed.

Lemma mapi_from_nth {A B} (f : nat -> A -> B) (l : list A) i n :
  nth_error (MemoryCache.mapi_from i f l) n =
  option_map (f (i + n)%nat) (nth_error l n).
Proof.
  revert i n. induction l as [|a l IH]; intros i [|n]; simpl; auto.
  - now rewrite Nat.add_0_r.
  - rewrite IH. now rewrite Nat.add_succ_r.
Qed.

Lemma mapi_from_length {A B} (f : nat -> A -> B) (l : list A) i :
  List.length (MemoryCache.mapi_from i f l) = List.length l.
Proof. revert i. induction l; intros i; simpl; auto. Qed.

(** Every method keeps the keys of the store distinct. *)
Lemma MemoryCache_set_wf now key (d : T) t m :
  JSMap.wf m -> JSMap.wf (snd (MemoryCache.set now key d t m)).
Proof.
  intros Hwf. rewrite MemoryCache_set_unfold. cbn [snd].
  apply JSMap_wf_set.
  destruct (CACHE_CONFIG.MAX_CACHE_SIZE <=? JSMap.size m)%nat; auto.
  destruct (JSMap.first_key m) as [k0|]; auto.
  destruct (truthy_string k0); auto using JSMap_wf_delete.
Qed.

Lemma MemoryCache_get_wf now key m :
  JSMap.wf m -> JSMap.wf (snd (MemoryCache.get now key m)).
Proof.
  intros Hwf. destruct (MemoryCache_get_store now key m) as [-> | ->];
    auto using JSMap_wf_delete.
Qed.

Lemma call_wf now (c : CacheCall T) m : JSMap.wf m -> JSMap.wf (call now c m).
Proof.
  intros Hwf. destruct c; simpl.
  - now apply MemoryCache_set_wf.
  - now apply MemoryCache_get_wf.
  - rewrite MemoryCache_has_store. now apply MemoryCache_get_wf.
  - now apply JSMap_wf_delete.
  - constructor.
  - rewrite MemoryCache_cleanup_filter by assumption.
    unfold JSMap.wf, JSMap.keys in *.
    clear - Hwf. induction m as [|[k e] rest IH]; simpl; auto.
    inversion Hwf as [|? ? Hnotin Hnd]; subst.
    destruct (negb (MemoryCache.expired now e)); simpl; auto.
    constructor; auto. intros Hin. apply Hnotin.
    apply in_map_iff in Hin. destruct Hin as [p [Hp Hf]].
    apply filter_In in Hf. rewrite <- Hp. apply in_map. tauto.
Qed.

Lemma calls_wf (cs : list (Z * CacheCall T)) m :
  JSMap.wf m -> JSMap.wf (calls cs m).
Proof.
  revert m. induction cs as [|[now c] cs IH]; intros m Hwf; simpl; auto.
  apply IH. now apply call_wf.
Qed.

End MemoryCacheFacts.

(* ================================================================== *)
(** * The size bound for clients that never use the empty key          *)
(* ================================================================== *)

Section Bounded.
Context {T : Type}.
Implicit Types (m : MemoryCache.Store T).

Lemma keys_truthy_filter (f : string * CacheEntry T -> bool) m :
  keys_truthy m -> keys_truthy (filter f m).
Proof.
  unfold keys_truthy. rewrite !Forall_forall.
  intros H p Hin. apply filter_In in Hin. apply H. tauto.
Qed.

Lemma keys_truthy_set k (e : CacheEntry T) m :
  truthy_string k = true -> keys_truthy m -> keys_truthy (JSMap.set k e m).
Proof.
  intros Hk. unfold keys_truthy.
  induction m as [|[k' e'] rest IH]; simpl; intros H.
  - now constructor.
  - inversion H as [|? ? Hp Hrest]; subst.
    destruct (String.eqb k k'); constructor; auto.
Qed.

Lemma MemoryCache_set_bounded now k (d : T) t m :
  JSMap.wf m -> keys_truthy m -> truthy_string k = true ->
  (JSMap.size m <= CACHE_CONFIG.MAX_CACHE_SIZE)%nat ->
  keys_truthy (snd (MemoryCache.set now k d t m))
  /\ (JSMap.size (snd (MemoryCache.set now k d t m)) <= CACHE_CONFIG.MAX_CACHE_SIZE)%nat.
Proof.
  intros Hwf Hkeys Hk Hsize. rewrite MemoryCache_set_unfold. cbn [snd].
  destruct (Nat.leb_spec CACHE_CONFIG.MAX_CACHE_SIZE (JSMap.size m)) as [Hfull|Hroom].
  - destruct m as [|[k0 e0] rest].
    + unfold CACHE_CONFIG.MAX_CACHE_SIZE in Hfull. simpl in Hfull. lia.
    + cbn [JSMap.first_key].
      inversion Hkeys as [|? ? Hk0 Hrest]; subst. simpl in Hk0. rewrite Hk0.
      rewrite (JSMap_delete_first k0 e0 rest Hwf). split.
      * now apply keys_truthy_set.
      * rewrite JSMap_size_set. unfold JSMap.size in *. simpl in Hsize, Hfull.
        destruct (JSMap.has k rest); lia.
  - split.
    + now apply keys_truthy_set.
    + rewrite JSMap_size_set. destruct (JSMap.has k m); lia.
Qed.

Lemma call_bounded now (c : CacheCall T) m :
  JSMap.wf m -> keys_truthy m ->
  Forall (fun k => truthy_string k = true) (set_keys [(now, c)]) ->
  (JSMap.size m <= CACHE_CONFIG.MAX_CACHE_SIZE)%nat ->
  keys_truthy (call now c m)
  /\ (JSMap.size (call now c m) <= CACHE_CONFIG.MAX_CACHE_SIZE)%nat.
Proof.
  intros Hwf Hkeys Hc Hsize.
  assert (Hdel : forall k, keys_truthy (JSMap.delete k m)
                           /\ (JSMap.size (JSMap.delete k m)
                               <= CACHE_CONFIG.MAX_CACHE_SIZE)%nat).
  { intros k. split; [now apply keys_truthy_filter|].
    pose proof (JSMap_size_delete_le k m). lia. }
  destruct c as [k d t|k|k|k| |]; cbn [call].
  - simpl in Hc. inversion Hc; subst. now apply MemoryCache_set_bounded.
  - destruct (MemoryCache_get_store now k m) as [-> | ->]; auto.
  - rewrite MemoryCache_has_store.
    destruct (MemoryCache_get_store now k m) as [-> | ->]; auto.
  - apply Hdel.
  - split; [constructor | simpl; lia].
  - rewrite (MemoryCache_cleanup_filter now m Hwf). split.
    + now apply keys_truthy_filter.
    + pose proof (filter_length_le
                    (fun p => negb (MemoryCache.expired now (snd p))) m).
      unfold JSMap.size in *. lia.
Qed.

(** X11. When no [set] is ever given the empty string as its key, the
    store never holds more than [MAX_CACHE_SIZE] entries, whatever the
    sequence of [set], [get], [has], [delete], [clear] and sweeps. *)
Lemma size_bounded_without_empty_key (cs : list (Z * CacheCall T)) :
  Forall (fun k => k <> "") (set_keys cs) ->
  (JSMap.size (calls cs []) <= CACHE_CONFIG.MAX_CACHE_SIZE)%nat.
Proof.
  intros Hcs.
  assert (G : forall cs m,
             Forall (fun k => truthy_string k = true) (set_keys cs) ->
             JSMap.wf m -> keys_truthy m ->
             (JSMap.size m <= CACHE_CONFIG.MAX_CACHE_SIZE)%nat ->
             (JSMap.size (calls cs m) <= CACHE_CONFIG.MAX_CACHE_SIZE)%nat).
  { clear. induction cs as [|[now c] cs IH]; intros m Hcs Hwf Hkeys Hsize; auto.
    cbn [calls].
    assert (Hc : Forall (fun k => truthy_string k = true) (set_keys [(now, c)])
                 /\ Forall (fun k => truthy_string k = true) (set_keys cs)).
    { destruct c; simpl in *; try (split; [constructor | assumption]).
      inversion Hcs; subst. split; auto. }
    destruct Hc as [Hc Hrest].
    destruct (call_bounded now c m Hwf Hkeys Hc Hsize) as [Hkeys' Hsize'].
    apply IH; auto using call_wf. }
  apply G.
  - eapply Forall_impl; [|exact Hcs]. intros [|a s] H; [congruence | reflexivity].
  - constructor.
  - constructor.
  - simpl. lia.
Qed.

End Bounded.

(* ================================================================== *)
(** * The cache store: expiry, eviction, sweep, statistics             *)
(* ================================================================== *)

(** C1. [MemoryCache.get(key)] on a stored entry: when
    [now - timestamp > ttl] it returns [null] and leaves the store without
    that entry (the other keys are untouched); when [now - timestamp <= ttl]
    it returns the stored value and the store is unchanged. *)
Theorem get_expiry_lazy {T} (now : Z) (key : string) (e : CacheEntry T)
  (m : MemoryCache.Store T) :
  JSMap.get key m = Some e ->
  (now - timestamp e > ttl e ->
     fst (MemoryCache.get now key m) = None
     /\ snd (MemoryCache.get now key m) = JSMap.delete key m
     /\ JSMap.get key (snd (MemoryCache.get now key m)) = None
     /\ (forall k', k' <> key ->
           JSMap.get k' (snd (MemoryCache.get now key m)) = JSMap.get k' m))
  /\ (now - timestamp e <= ttl e ->
      MemoryCache.get now key m = (Some (data e), m)).
Proof.
  intros Hget. split; intros Hage.
  - apply expired_true in Hage.
    rewrite (MemoryCache_get_expired now key e m Hget Hage). cbn [fst snd].
    repeat split.
    + apply JSMap_get_delete_same.
    + intros k' Hne. now apply JSMap_get_delete_other.
  - apply expired_false in Hage.
    now apply MemoryCache_get_fresh.
Qed.

Lemma get_expiry_lazy_witness :
  (fst (MemoryCache.get 1001 "k" Examples.two_entries) = None
   /\ snd (MemoryCache.get 1001 "k" Examples.two_entries)
      = JSMap.delete "k" Examples.two_entries
   /\ JSMap.get "k" (snd (MemoryCache.get 1001 "k" Examples.two_entries)) = None
   /\ (forall k', k' <> "k" ->
         JSMap.get k' (snd (MemoryCache.get 1001 "k" Examples.two_entries))
         = JSMap.get k' Examples.two_entries))
  /\ MemoryCache.get 1000 "k" Examples.two_entries
     = (Some 100%nat, Examples.two_entries).
Proof.
  split.
  - apply (get_expiry_lazy 1001 "k" (mkCacheEntry 100%nat 0 1000 "k")
             Examples.two_entries); [reflexivity | simpl; lia].
  - apply (get_expiry_lazy 1000 "k" (mkCacheEntry 100%nat 0 1000 "k")
             Examples.two_entries); [reflexivity | simpl; lia].
Defined.

(** C2. The size bound fails on the code: after [set("", ..)] the first
    key of the store is the empty string, which [if (oldestKey)] takes for
    "no key", so nothing is evicted any more; a thousand further [set]s of
    new keys leave 1001 entries in a store whose maximum is 1000. *)
Theorem size_exceeds_maximum_after_empty_key :
  JSMap.size (calls Examples.overflow_calls []) = 1001%nat
  /\ (CACHE_CONFIG.MAX_CACHE_SIZE < JSMap.size (calls Examples.overflow_calls []))%nat
  /\ JSMap.first_key (calls Examples.overflow_calls []) = Some "".
Proof.
  assert (E : JSMap.size (calls Examples.overflow_calls []) = 1001%nat)
    by (vm_compute; reflexivity).
  split; [exact E|]. split.
  - rewrite E. unfold CACHE_CONFIG.MAX_CACHE_SIZE. apply Nat.lt_succ_diag_r.
  - vm_compute. reflexivity.
Qed.

(** C3, as the claim states it, fails: on a store at capacity, [set] of a
    key that is already present (["5"]) removes another entry, the oldest
    one (["0"]), and the store shrinks to 999 entries. *)
Lemma set_present_key_evicts_oldest :
  JSMap.size Examples.full_store = CACHE_CONFIG.MAX_CACHE_SIZE
  /\ JSMap.has "5" Examples.full_store = true
  /\ JSMap.get "0" Examples.full_store = Some (mkCacheEntry 0%nat 0 60000 "0")
  /\ JSMap.get "0" (snd (MemoryCache.set 1 "5" 5%nat 60000 Examples.full_store))
     = None
  /\ JSMap.size (snd (MemoryCache.set 1 "5" 5%nat 60000 Examples.full_store))
     = 999%nat.
Proof. vm_compute. repeat split. Qed.

(** C3, amended. After [set(key, data, ttl)] the store maps [key] to the
    new entry. Below capacity no entry is removed: every other key keeps
    its entry, and [key] keeps its place or goes last. With
    [MAX_CACHE_SIZE] entries or more and a non-empty first key [k0], that
    oldest entry is removed, whether or not [key] is already present, and
    it is the only one: every key other than [k0] and [key] keeps its
    entry, and the keys are those after [k0], with [key] in its place or
    last. *)
Theorem set_eviction {T} (now : Z) (key : string) (d : T) (t : Z)
  (m : MemoryCache.Store T) :
  JSMap.wf m ->
  JSMap.get key (snd (MemoryCache.set now key d t m))
  = Some (mkCacheEntry d now t key)
  /\ ((JSMap.size m < CACHE_CONFIG.MAX_CACHE_SIZE)%nat ->
      (forall k', k' <> key ->
         JSMap.get k' (snd (MemoryCache.set now key d t m)) = JSMap.get k' m)
      /\ JSMap.keys (snd (MemoryCache.set now key d t m))
         = if JSMap.has key m then JSMap.keys m
           else (JSMap.keys m ++ [key])%list)
  /\ (forall k0 e0 rest,
        m = (k0, e0) :: rest ->
        (CACHE_CONFIG.MAX_CACHE_SIZE <= JSMap.size m)%nat ->
        k0 <> "" ->
        (k0 <> key ->
           JSMap.get k0 (snd (MemoryCache.set now key d t m)) = None)
        /\ (forall k', k' <> key -> k' <> k0 ->
              JSMap.get k' (snd (MemoryCache.set now key d t m)) = JSMap.get k' m)
        /\ JSMap.keys (snd (MemoryCache.set now key d t m))
           = if JSMap.has key rest then JSMap.keys rest
             else (JSMap.keys rest ++ [key])%list).
Proof.
  intros Hwf. rewrite MemoryCache_set_unfold. cbn [snd].
  split; [apply JSMap_get_set_same|]. split.
  - intros Hlt. apply Nat.leb_gt in Hlt. rewrite Hlt. split.
    + intros k' Hne. now apply JSMap_get_set_other.
    + apply JSMap_keys_set.
  - intros k0 e0 rest -> Hge Hk0.
    apply Nat.leb_le in Hge. rewrite Hge. cbn [JSMap.first_key].
    assert (Ht : truthy_string k0 = true) by (destruct k0; [congruence | reflexivity]).
    rewrite Ht, (JSMap_delete_first k0 e0 rest Hwf).
    assert (Hnone : JSMap.get k0 rest = None).
    { apply JSMap_get_none_not_in. now inversion Hwf. }
    repeat split.
    + intros Hne. rewrite JSMap_get_set_other by assumption. exact Hnone.
    + intros k' Hne Hne0. rewrite JSMap_get_set_other by assumption.
      simpl. apply String.eqb_neq in Hne0. now rewrite Hne0.
    + apply JSMap_keys_set.
Qed.

Lemma set_eviction_witness :
  JSMap.get "0" (snd (MemoryCache.set 1 "5" 5%nat 60000 Examples.full_store)) = None
  /\ JSMap.get "7" (snd (MemoryCache.set 1 "5" 5%nat 60000 Examples.full_store))
     = JSMap.get "7" Examples.full_store
  /\ JSMap.get "k" (snd (MemoryCache.set 300 "i" 3%nat 10 Examples.two_entries))
     = JSMap.get "k" Examples.two_entries.
Proof.
  assert (Hwf : JSMap.wf Examples.full_store) by (apply calls_wf; constructor).
  assert (Hwf2 : JSMap.wf Examples.two_entries) by (apply calls_wf; constructor).
  pose proof (set_eviction 1 "5" 5%nat 60000 Examples.full_store Hwf) as [_ [_ H]].
  specialize (H "0" (mkCacheEntry 0%nat 0 60000 "0") (tl Examples.full_store)).
  destruct H as [H0 [H1 _]].
  { vm_compute. reflexivity. }
  { vm_compute. repeat constructor. }
  { discriminate. }
  pose proof (set_eviction 300 "i" 3%nat 10 Examples.two_entries Hwf2) as [_ [L _]].
  destruct L as [L _].
  { vm_compute. repeat constructor. }
  split; [apply H0; discriminate|].
  split; [apply H1; discriminate | apply L; discriminate].
Defined.

(** C7. One sweep at time [now] keeps exactly the entries that are not
    expired at [now], in their order: an entry with
    [now - timestamp > ttl] is gone afterwards, an entry with
    [now - timestamp <= ttl] is still there, and whatever is there
    afterwards was there before and is not expired. *)
Theorem cleanup_sweep {T} (now : Z) (m : MemoryCache.Store T) :
  JSMap.wf m ->
  (forall k e, JSMap.get k m = Some e -> now - timestamp e > ttl e ->
     JSMap.get k (snd (MemoryCache.cleanup now m)) = None)
  /\ (forall k e, JSMap.get k m = Some e -> now - timestamp e <= ttl e ->
        JSMap.get k (snd (MemoryCache.cleanup now m)) = Some e)
  /\ (forall k e, JSMap.get k (snd (MemoryCache.cleanup now m)) = Some e ->
        JSMap.get k m = Some e /\ now - timestamp e <= ttl e)
  /\ snd (MemoryCache.cleanup now m)
     = filter (fun p => negb (MemoryCache.expired now (snd p))) m.
Proof.
  intros Hwf. rewrite (MemoryCache_cleanup_filter now m Hwf).
  pose proof (fun k => JSMap_get_filter
                (fun e => negb (MemoryCache.expired now e)) k m Hwf) as G.
  split; [|split; [|split]].
  - intros k e Hget Hage. rewrite G, Hget.
    apply expired_true in Hage. now rewrite Hage.
  - intros k e Hget Hage. rewrite G, Hget.
    apply expired_false in Hage. now rewrite Hage.
  - intros k e Hafter. rewrite G in Hafter.
    destruct (JSMap.get k m) as [e'|]; [|discriminate].
    destruct (MemoryCache.expired now e') eqn:X; simpl in Hafter; [discriminate|].
    injection Hafter as <-. split; [reflexivity | now apply expired_false].
  - reflexivity.
Qed.

Lemma cleanup_sweep_witness :
  JSMap.get "k" (snd (MemoryCache.cleanup 1001 Examples.two_entries)) = None
  /\ JSMap.get "j" (snd (MemoryCache.cleanup 1001 Examples.two_entries))
     = Some (mkCacheEntry 7%nat 200 5000 "j").
Proof.
  assert (Hwf : JSMap.wf Examples.two_entries) by (apply calls_wf; constructor).
  destruct (cleanup_sweep 1001 Examples.two_entries Hwf) as [Hgone [Hkept _]].
  split.
  - apply (Hgone "k" (mkCacheEntry 100%nat 0 1000 "k")); [reflexivity | simpl; lia].
  - apply (Hkept "j" (mkCacheEntry 7%nat 200 5000 "j")); [reflexivity | simpl; lia].
Defined.

(** C9. [getStats()] leaves the store as it was, whatever the clock
    reads, so an entry it reports as expired is still stored; the snapshot
    has the current size, [MAX_CACHE_SIZE], and for the [i]-th entry its
    key, its age at one clock reading, its ttl, and whether it is expired
    at the next reading. *)
Theorem getStats_read_only {T} (clock : nat -> Z) (m : MemoryCache.Store T) :
  snd (MemoryCache.getStats clock m) = m
  /\ stats_size (fst (MemoryCache.getStats clock m)) = JSMap.size m
  /\ stats_maxSize (fst (MemoryCache.getStats clock m)) = CACHE_CONFIG.MAX_CACHE_SIZE
  /\ map stat_key (stats_entries (fst (MemoryCache.getStats clock m))) = JSMap.keys m
  /\ (forall i k e, nth_error m i = Some (k, e) ->
        nth_error (stats_entries (fst (MemoryCache.getStats clock m))) i
        = Some (mkEntryStats k (clock (2 * i)%nat - timestamp e) (ttl e)
                  (clock (2 * i + 1)%nat - timestamp e >? ttl e))).
Proof.
  unfold MemoryCache.getStats, MemoryCache.bind, MemoryCache.cache_size,
    MemoryCache.cache_entries, MemoryCache.ret, JSMap.entries.
  cbn [fst snd stats_size stats_maxSize stats_entries].
  repeat split.
  - now apply mapi_from_keys.
  - intros i k e Hnth. rewrite mapi_from_nth, Hnth. reflexivity.
Qed.

(** C10. [has(key)] on an expired entry returns [false] and deletes the
    entry, as [get] does: the store has one entry less and [getStats]
    does not list the key any more. On an absent key, or an entry that is
    not expired, the store is unchanged. *)
Theorem has_deletes_expired {T} (now : Z) (key : string)
  (m : MemoryCache.Store T) :
  JSMap.wf m ->
  (forall e, JSMap.get key m = Some e -> now - timestamp e > ttl e ->
     MemoryCache.has now key m = (false, JSMap.delete key m)
     /\ snd (MemoryCache.has now key m) = snd (MemoryCache.get now key m)
     /\ S (JSMap.size (snd (MemoryCache.has now key m))) = JSMap.size m
     /\ (forall clock,
           S (stats_size (fst (MemoryCache.getStats clock
                                 (snd (MemoryCache.has now key m)))))
           = stats_size (fst (MemoryCache.getStats clock m))
           /\ ~ In key (map stat_key
                          (stats_entries
                             (fst (MemoryCache.getStats clock
                                     (snd (MemoryCache.has now key m))))))))
  /\ (JSMap.get key m = None -> MemoryCache.has now key m = (false, m))
  /\ (forall e, JSMap.get key m = Some e -> now - timestamp e <= ttl e ->
        MemoryCache.has now key m = (true, m)).
Proof.
  intros Hwf. split; [|split].
  - intros e Hget Hage. apply expired_true in Hage.
    pose proof (JSMap_size_delete_present key e m Hwf Hget) as Hsize.
    rewrite MemoryCache_has_store.
    rewrite (MemoryCache_has_expired now key e m Hget Hage).
    rewrite (MemoryCache_get_expired now key e m Hget Hage). cbn [snd].
    split; [reflexivity|]. split; [reflexivity|]. split; [exact Hsize|].
    intros clock.
    unfold MemoryCache.getStats, MemoryCache.bind, MemoryCache.cache_size,
      MemoryCache.cache_entries, MemoryCache.ret, JSMap.entries.
    cbn [fst stats_size stats_entries]. split; [exact Hsize|].
    rewrite mapi_from_keys by reflexivity.
    apply JSMap_get_none_not_in, JSMap_get_delete_same.
  - now apply MemoryCache_has_absent.
  - intros e Hget Hage. apply expired_false in Hage.
    now apply MemoryCache_has_fresh with e.
Qed.

Lemma has_deletes_expired_witness :
  MemoryCache.has 1001 "k" Examples.two_entries
  = (false, JSMap.delete "k" Examples.two_entries)
  /\ MemoryCache.has 1001 "i" Examples.two_entries = (false, Examples.two_entries)
  /\ MemoryCache.has 1001 "j" Examples.two_entries = (true, Examples.two_entries).
Proof.
  assert (Hwf : JSMap.wf Examples.two_entries) by (apply calls_wf; constructor).
  destruct (has_deletes_expired 1001 "k" Examples.two_entries Hwf) as [Hk _].
  destruct (has_deletes_expired 1001 "i" Examples.two_entries Hwf) as [_ [Hi _]].
  destruct (has_deletes_expired 1001 "j" Examples.two_entries Hwf) as [_ [_ Hj]].
  split; [|split].
  - apply (Hk (mkCacheEntry 100%nat 0 1000 "k")); [reflexivity | simpl; lia].
  - apply Hi. reflexivity.
  - apply (Hj (mkCacheEntry 7%nat 200 5000 "j")); [reflexivity | simpl; lia].
Defined.

(* ================================================================== *)
(** * Facts about the fetch helpers                                    *)
(* ================================================================== *)

Lemma world_eta (w : Server.World) :
  Server.mkWorld (Server.cache w) (Server.clock w) (Server.requests w) = w.
Proof. now destruct w. Qed.

Lemma on_cache_get_miss key w :
  fst (MemoryCache.get (Server.clock w) key (Server.cache w)) = None ->
  Server.on_cache (fun now => MemoryCache.get now key) w
  = (Server.Returned None, after_miss key w).
Proof.
  intros H. unfold Server.on_cache, after_miss.
  destruct (MemoryCache.get (Server.clock w) key (Server.cache w)) as [a m'].
  simpl in H. now subst a.
Qed.

Lemma on_cache_get_hit key e w :
  JSMap.get key (Server.cache w) = Some e ->
  Server.clock w - timestamp e <= ttl e ->
  Server.on_cache (fun now => MemoryCache.get now key) w
  = (Server.Returned (Some (data e)), w).
Proof.
  intros Hget Hage. apply expired_false in Hage.
  unfold Server.on_cache.
  rewrite (MemoryCache_get_fresh _ _ _ _ Hget Hage). now rewrite world_eta.
Qed.

Lemma fetchCurrentGoldPrice_miss env w :
  fst (MemoryCache.get (Server.clock w) "current_gold_price" (Server.cache w)) = None ->
  Server.fetchCurrentGoldPrice env w =
  let w' :=
    after_requests [Server.QuoteRequest Server.GLD; Server.QuoteRequest Server.GCUSD]
      (Z.max (Server.latency env (Server.clock w) (Server.QuoteRequest Server.GLD))
             (Server.latency env (Server.clock w) (Server.QuoteRequest Server.GCUSD)))
      (after_miss "current_gold_price" w) in
  match selected_quote (Server.quote env (Server.clock w) Server.GLD)
          (Server.quote env (Server.clock w) Server.GCUSD) with
  | Server.Thrown e => (Server.Thrown e, w')
  | Server.Returned None =>
      (Server.Thrown (Server.JsError "No gold data available from API"), w')
  | Server.Returned (Some q) =>
      (Server.Returned (QuotePayload q),
       after_set "current_gold_price" (QuotePayload q)
         CACHE_CONFIG.CURRENT_PRICE_TTL w')
  end.
Proof.
  intros H. unfold Server.fetchCurrentGoldPrice.
  unfold Server.bind at 1. rewrite (on_cache_get_miss _ _ H).
  unfold_async.
  unfold Server.fulfilled_first_record, selected_quote, after_set,
    after_requests, after_miss.
  unfold_async. cbn [Server.cache Server.clock Server.requests].
  destruct (Server.quote env (Server.clock w) Server.GCUSD) as [[[|q qs]| |]|];
    destruct (Server.quote env (Server.clock w) Server.GLD) as [[[|q' qs']| |]|];
    try reflexivity;
    destruct (MemoryCache.set _ _ _ _ _); reflexivity.
Qed.

Lemma fetchCurrentGoldPrice_hit env w e :
  JSMap.get "current_gold_price" (Server.cache w) = Some e ->
  Server.clock w - timestamp e <= ttl e ->
  Server.fetchCurrentGoldPrice env w = (Server.Returned (data e), w).
Proof.
  intros Hget Hage. unfold Server.fetchCurrentGoldPrice.
  unfold Server.bind at 1. now rewrite (on_cache_get_hit _ _ _ Hget Hage).
Qed.

Lemma after_set_get key p t w :
  JSMap.get key (Server.cache (after_set key p t w))
  = Some (mkCacheEntry p (Server.clock w) t key).
Proof.
  unfold after_set. cbn [Server.cache].
  rewrite MemoryCache_set_unfold. cbn [snd]. apply JSMap_get_set_same.
Qed.

Lemma fetchHistoricalData_hit env timeframe w e :
  JSMap.get ("historical_" ++ timeframe) (Server.cache w) = Some e ->
  Server.clock w - timestamp e <= ttl e ->
  Server.fetchHistoricalData env timeframe w = (Server.Returned (data e), w).
Proof.
  intros Hget Hage. unfold Server.fetchHistoricalData.
  unfold Server.bind at 1. now rewrite (on_cache_get_hit _ _ _ Hget Hage).
Qed.

Lemma fetchDateSpecificData_hit env date w e :
  JSMap.get ("date_" ++ date) (Server.cache w) = Some e ->
  Server.clock w - timestamp e <= ttl e ->
  Server.fetchDateSpecificData env date w = (Server.Returned (data e), w).
Proof.
  intros Hget Hage. unfold Server.fetchDateSpecificData.
  unfold Server.bind at 1. now rewrite (on_cache_get_hit _ _ _ Hget Hage).
Qed.

Lemma fetchHistoricalData_miss env timeframe w start end_ :
  fst (MemoryCache.get (Server.clock w) ("historical_" ++ timeframe) (Server.cache w)) = None ->
  Server.getDateRange env (Server.clock w) timeframe = (start, end_) ->
  Server.fetchHistoricalData env timeframe w =
  let key := "historical_" ++ timeframe in
  let primary := Server.HistoricalRequest Server.GCUSD start end_ in
  let secondary := Server.HistoricalRequest Server.GLD start end_ in
  let w1 := after_requests [primary]
              (Server.latency env (Server.clock w) primary) (after_miss key w) in
  match Server.historical_price_full env (Server.clock w) Server.GCUSD start end_ with
  | Server.Fulfilled body =>
      conclude_historical key (Server.assign_historical body []) w1
  | Server.Rejected =>
      let w2 := after_requests [secondary]
                  (Server.latency env (Server.clock w1) secondary) w1 in
      match Server.historical_price_full env (Server.clock w1) Server.GLD start end_ with
      | Server.Fulfilled body =>
          conclude_historical key (Server.assign_historical body []) w2
      | Server.Rejected => (Server.Thrown (Server.AxiosError secondary), w2)
      end
  end.
Proof.
  intros H R. unfold Server.fetchHistoricalData.
  unfold Server.bind at 1. rewrite (on_cache_get_miss _ _ H).
  unfold Server.bind at 1. unfold Server.Date_now at 1.
  unfold after_miss at 1. cbn [Server.clock]. rewrite R.
  unfold_async. unfold conclude_historical, after_set, after_requests, after_miss.
  cbn [Server.cache Server.clock Server.requests].
  destruct (Server.historical_price_full env (Server.clock w) Server.GCUSD start end_)
    as [body|].
  - destruct (Server.assign_historical body []); [reflexivity|].
    destruct (MemoryCache.set _ _ _ _ _); reflexivity.
  - destruct (Server.historical_price_full env _ Server.GLD start end_) as [body|];
      [|reflexivity].
    destruct (Server.assign_historical body []); [reflexivity|].
    destruct (MemoryCache.set _ _ _ _ _); reflexivity.
Qed.

Lemma fetchDateSpecificData_miss env date w :
  fst (MemoryCache.get (Server.clock w) ("date_" ++ date) (Server.cache w)) = None ->
  Server.fetchDateSpecificData env date w =
  let key := "date_" ++ date in
  let r := Server.HistoricalRequest Server.GCUSD date date in
  let w1 := after_requests [r] (Server.latency env (Server.clock w) r)
              (after_miss key w) in
  match Server.historical_price_full env (Server.clock w) Server.GCUSD date date with
  | Server.Fulfilled (Server.BodyObject (Some (p :: _)))
  | Server.Fulfilled (Server.BodyArray (p :: _)) =>
      (Server.Returned (PointPayload p),
       after_set key (PointPayload p) CACHE_CONFIG.DATE_SPECIFIC_TTL w1)
  | Server.Fulfilled _ =>
      (Server.Thrown (Server.JsError ("No data found for date " ++ date)), w1)
  | Server.Rejected => (Server.Thrown (Server.AxiosError r), w1)
  end.
Proof.
  intros H. unfold Server.fetchDateSpecificData.
  unfold Server.bind at 1. rewrite (on_cache_get_miss _ _ H).
  unfold_async. unfold after_set, after_requests, after_miss.
  cbn [Server.cache Server.clock Server.requests].
  destruct (Server.historical_price_full env (Server.clock w) Server.GCUSD date date)
    as [[[|p l]|[[|p l]|]|]|]; cbn [hd_error]; try reflexivity;
    destruct (MemoryCache.set _ _ _ _ _); reflexivity.
Qed.

(** After a miss, a fetch helper that returns has stored what it returns,
    under its key, stamped with the clock reading at its end. *)
Lemma fetchCurrentGoldPrice_stores env w p w1 :
  fst (MemoryCache.get (Server.clock w) "current_gold_price" (Server.cache w)) = None ->
  Server.fetchCurrentGoldPrice env w = (Server.Returned p, w1) ->
  JSMap.get "current_gold_price" (Server.cache w1)
  = Some (mkCacheEntry p (Server.clock w1) CACHE_CONFIG.CURRENT_PRICE_TTL
            "current_gold_price")
  /\ Server.requests w1
     = (Server.requests w
        ++ [Server.QuoteRequest Server.GLD; Server.QuoteRequest Server.GCUSD])%list.
Proof.
  intros H. rewrite (fetchCurrentGoldPrice_miss env w H). cbv zeta.
  destruct (selected_quote _ _) as [[q|]|e]; try discriminate.
  intros [= <- <-]. split; [(rewrite after_set_get; reflexivity) | reflexivity].
Qed.

Lemma fetchHistoricalData_stores env timeframe w p w1 :
  fst (MemoryCache.get (Server.clock w) ("historical_" ++ timeframe) (Server.cache w)) = None ->
  Server.fetchHistoricalData env timeframe w = (Server.Returned p, w1) ->
  JSMap.get ("historical_" ++ timeframe) (Server.cache w1)
  = Some (mkCacheEntry p (Server.clock w1) CACHE_CONFIG.HISTORICAL_DATA_TTL
            ("historical_" ++ timeframe))
  /\ Server.requests w1 <> Server.requests w.
Proof.
  intros H.
  destruct (Server.getDateRange env (Server.clock w) timeframe) as [start end_] eqn:R.
  rewrite (fetchHistoricalData_miss env timeframe w start end_ H R). cbv zeta.
  assert (Grow : forall (l : list Server.Request) x l', (l ++ x :: l')%list <> l).
  { intros l x l' E. apply (f_equal (@List.length _)) in E.
    rewrite length_app in E. simpl in E. lia. }
  unfold conclude_historical.
  destruct (Server.historical_price_full env (Server.clock w) Server.GCUSD start end_)
    as [body|].
  - destruct (Server.assign_historical body []); [discriminate|].
    intros [= <- <-]. split; [(rewrite after_set_get; reflexivity) | apply Grow].
  - destruct (Server.historical_price_full env _ Server.GLD start end_) as [body|];
      [|discriminate].
    destruct (Server.assign_historical body []); [discriminate|].
    intros [= <- <-]. split; [(rewrite after_set_get; reflexivity)|].
    cbn [after_set after_requests Server.requests after_miss].
    rewrite <- app_assoc. apply Grow.
Qed.

(** The requests of [fetchHistoricalData] after a miss: the primary one,
    and the secondary one when the primary is rejected. *)
Lemma fetchHistoricalData_requests env timeframe w start end_ :
  fst (MemoryCache.get (Server.clock w) ("historical_" ++ timeframe) (Server.cache w)) = None ->
  Server.getDateRange env (Server.clock w) timeframe = (start, end_) ->
  Server.requests (snd (Server.fetchHistoricalData env timeframe w))
  = match Server.historical_price_full env (Server.clock w) Server.GCUSD start end_ with
    | Server.Fulfilled _ =>
        (Server.requests w
         ++ [Server.HistoricalRequest Server.GCUSD start end_])%list
    | Server.Rejected =>
        (Server.requests w
         ++ [Server.HistoricalRequest Server.GCUSD start end_;
             Server.HistoricalRequest Server.GLD start end_])%list
    end.
Proof.
  intros H R.
  rewrite (fetchHistoricalData_miss env timeframe w start end_ H R). cbv zeta.
  unfold conclude_historical.
  destruct (Server.historical_price_full env (Server.clock w) Server.GCUSD start end_)
    as [body|].
  - destruct (Server.assign_historical body []); reflexivity.
  - destruct (Server.historical_price_full env _ Server.GLD start end_) as [body|];
      [destruct (Server.assign_historical body [])|];
      cbn [snd after_set after_requests after_miss Server.requests];
      rewrite <- app_assoc; reflexivity.
Qed.

Lemma fetchDateSpecificData_stores env date w p w1 :
  fst (MemoryCache.get (Server.clock w) ("date_" ++ date) (Server.cache w)) = None ->
  Server.fetchDateSpecificData env date w = (Server.Returned p, w1) ->
  JSMap.get ("date_" ++ date) (Server.cache w1)
  = Some (mkCacheEntry p (Server.clock w1) CACHE_CONFIG.DATE_SPECIFIC_TTL
            ("date_" ++ date))
  /\ Server.requests w1
     = (Server.requests w ++ [Server.HistoricalRequest Server.GCUSD date date])%list.
Proof.
  intros H. rewrite (fetchDateSpecificData_miss env date w H). cbv zeta.
  destruct (Server.historical_price_full env (Server.clock w) Server.GCUSD date date)
    as [[[|q l]|[[|q l]|]|]|]; try discriminate;
    intros [= <- <-]; (split; [(rewrite after_set_get; reflexivity) | reflexivity]).
Qed.

(** After a fresh fetch the handler answers [cached: true], unless more
    than the TTL passes before it reads the clock for [cache.has]. *)
Lemma get_api_gold_current_fresh env unit w p w1 :
  fst (MemoryCache.get (Server.clock w) "current_gold_price" (Server.cache w)) = None ->
  Server.fetchCurrentGoldPrice env w = (Server.Returned p, w1) ->
  Server.pause env (Server.clock w1) <= CACHE_CONFIG.CURRENT_PRICE_TTL ->
  Server.get_api_gold_current env unit w
  = (Server.Json200 (Server.mkCurrentBody p (getUnitLabel unit) unit true),
     Server.advance (Server.pause env (Server.clock w1)) w1).
Proof.
  intros Hmiss Hfetch Hpause.
  destruct (fetchCurrentGoldPrice_stores env w p w1 Hmiss Hfetch) as [Hget _].
  unfold Server.get_api_gold_current.
  unfold Server.bind at 1. rewrite Hfetch.
  unfold Server.bind at 1. unfold Server.tick at 1.
  unfold Server.bind at 1. unfold Server.on_cache.
  cbn [Server.cache Server.clock Server.requests].
  rewrite (MemoryCache_has_fresh _ _ _ _ Hget).
  - reflexivity.
  - apply expired_false. cbn [timestamp ttl]. lia.
Qed.

(* ================================================================== *)
(** * The fetch helpers: selection, fallback, cache hits               *)
(* ================================================================== *)

(** C4. The selection fails on a fulfilled [null] body. The server has
    nothing cached, the GCUSD request is fulfilled with [null] and the
    GLD request with one quote: [fetchCurrentGoldPrice] issues both
    requests and throws the [TypeError] of the unguarded [data[0]],
    neither falling back to the GLD quote nor throwing
    ['No gold data available from API']. With an error object in place
    of [null] it does fall back. *)
Theorem fetchCurrentGoldPrice_null_body_throws :
  fst (MemoryCache.get (Server.clock Examples.world0) "current_gold_price"
         (Server.cache Examples.world0)) = None
  /\ Server.quote Examples.env_spot_null (Server.clock Examples.world0) Server.GCUSD
     = Server.Fulfilled Server.QuoteNullish
  /\ Server.quote Examples.env_spot_null (Server.clock Examples.world0) Server.GLD
     = Server.Fulfilled (Server.QuoteArray [Examples.gld_quote])
  /\ Server.fetchCurrentGoldPrice Examples.env_spot_null Examples.world0
     = (Server.Thrown Server.TypeError,
        Server.mkWorld [] 40
          [Server.QuoteRequest Server.GLD; Server.QuoteRequest Server.GCUSD])
  /\ fst (Server.fetchCurrentGoldPrice Examples.env_spot_error_object Examples.world0)
     = Server.Returned (QuotePayload Examples.gld_quote).
Proof.
  split; [reflexivity|]. split; [reflexivity|]. split; [reflexivity|].
  assert (Hmiss : fst (MemoryCache.get (Server.clock Examples.world0)
                         "current_gold_price" (Server.cache Examples.world0)) = None)
    by reflexivity.
  split.
  - rewrite (fetchCurrentGoldPrice_miss Examples.env_spot_null Examples.world0 Hmiss).
    reflexivity.
  - rewrite (fetchCurrentGoldPrice_miss Examples.env_spot_error_object
               Examples.world0 Hmiss).
    reflexivity.
Qed.

(** X24. On a cache miss [fetchCurrentGoldPrice] issues the GLD and the
    GCUSD quote requests. It returns the first GCUSD record when that
    request is fulfilled with a non-empty array. When the GCUSD request
    is rejected, or fulfilled with an empty array or a value without a
    property [0], it returns the first GLD record when that request is
    fulfilled with a non-empty array, and throws
    ['No gold data available from API'], writing nothing to the cache,
    when the GLD request has nothing either. A fulfilled [null] or
    [undefined] body makes it throw a [TypeError] instead: that of GCUSD
    whatever GLD answers, that of GLD when GCUSD has no record. *)
Theorem fetchCurrentGoldPrice_selection (env : Server.Environment)
  (w : Server.World) :
  fst (MemoryCache.get (Server.clock w) "current_gold_price" (Server.cache w)) = None ->
  Server.requests (snd (Server.fetchCurrentGoldPrice env w))
  = (Server.requests w
     ++ [Server.QuoteRequest Server.GLD; Server.QuoteRequest Server.GCUSD])%list
  /\ (forall q qs,
        Server.quote env (Server.clock w) Server.GCUSD
        = Server.Fulfilled (Server.QuoteArray (q :: qs)) ->
        fst (Server.fetchCurrentGoldPrice env w) = Server.Returned (QuotePayload q))
  /\ (Server.quote env (Server.clock w) Server.GCUSD = Server.Fulfilled Server.QuoteNullish ->
      fst (Server.fetchCurrentGoldPrice env w) = Server.Thrown Server.TypeError)
  /\ (Server.quote env (Server.clock w) Server.GCUSD = Server.Rejected
      \/ Server.quote env (Server.clock w) Server.GCUSD
         = Server.Fulfilled (Server.QuoteArray [])
      \/ Server.quote env (Server.clock w) Server.GCUSD
         = Server.Fulfilled Server.QuoteOther ->
      (forall q qs,
         Server.quote env (Server.clock w) Server.GLD
         = Server.Fulfilled (Server.QuoteArray (q :: qs)) ->
         fst (Server.fetchCurrentGoldPrice env w) = Server.Returned (QuotePayload q))
      /\ (Server.quote env (Server.clock w) Server.GLD
          = Server.Fulfilled Server.QuoteNullish ->
          fst (Server.fetchCurrentGoldPrice env w) = Server.Thrown Server.TypeError)
      /\ (Server.quote env (Server.clock w) Server.GLD = Server.Rejected
          \/ Server.quote env (Server.clock w) Server.GLD
             = Server.Fulfilled (Server.QuoteArray [])
          \/ Server.quote env (Server.clock w) Server.GLD
             = Server.Fulfilled Server.QuoteOther ->
          fst (Server.fetchCurrentGoldPrice env w)
          = Server.Thrown (Server.JsError "No gold data available from API")
          /\ Server.cache (snd (Server.fetchCurrentGoldPrice env w))
             = snd (MemoryCache.get (Server.clock w) "current_gold_price"
                      (Server.cache w)))).
Proof.
  intros Hmiss. rewrite (fetchCurrentGoldPrice_miss env w Hmiss). cbv zeta.
  split; [|split; [|split]].
  - destruct (selected_quote _ _) as [[q|]|e]; reflexivity.
  - intros q qs Hgold. rewrite Hgold. reflexivity.
  - intros Hgold. rewrite Hgold. reflexivity.
  - intros Hgold. split; [|split].
    + intros q qs Hgld. rewrite Hgld.
      destruct Hgold as [Hgold|[Hgold|Hgold]]; rewrite Hgold; reflexivity.
    + intros Hgld. rewrite Hgld.
      destruct Hgold as [Hgold|[Hgold|Hgold]]; rewrite Hgold; reflexivity.
    + intros Hgld.
      destruct Hgold as [Hgold|[Hgold|Hgold]]; rewrite Hgold;
        destruct Hgld as [Hgld|[Hgld|Hgld]]; rewrite Hgld; split; reflexivity.
Qed.

Lemma fetchCurrentGoldPrice_selection_witness :
  fst (Server.fetchCurrentGoldPrice Examples.env_spot Examples.world0)
  = Server.Returned (QuotePayload Examples.spot_quote)
  /\ fst (Server.fetchCurrentGoldPrice Examples.env_spot_empty Examples.world0)
     = Server.Returned (QuotePayload Examples.gld_quote)
  /\ fst (Server.fetchCurrentGoldPrice Examples.env_spot_down Examples.world0)
     = Server.Returned (QuotePayload Examples.gld_quote)
  /\ fst (Server.fetchCurrentGoldPrice Examples.env_no_data Examples.world0)
     = Server.Thrown (Server.JsError "No gold data available from API")
  /\ fst (Server.fetchCurrentGoldPrice Examples.env_spot_null Examples.world0)
     = Server.Thrown Server.TypeError.
Proof.
  assert (Hmiss : fst (MemoryCache.get (Server.clock Examples.world0)
                         "current_gold_price" (Server.cache Examples.world0)) = None)
    by reflexivity.
  destruct (fetchCurrentGoldPrice_selection Examples.env_spot Examples.world0 Hmiss)
    as [_ [Hspot _]].
  destruct (fetchCurrentGoldPrice_selection Examples.env_spot_empty Examples.world0 Hmiss)
    as [_ [_ [_ Hempty]]].
  destruct (fetchCurrentGoldPrice_selection Examples.env_spot_down Examples.world0 Hmiss)
    as [_ [_ [_ Hdown]]].
  destruct (fetchCurrentGoldPrice_selection Examples.env_no_data Examples.world0 Hmiss)
    as [_ [_ [_ Hnone]]].
  destruct (fetchCurrentGoldPrice_selection Examples.env_spot_null Examples.world0 Hmiss)
    as [_ [_ [Hnull _]]].
  split; [|split; [|split; [|split]]].
  - apply (Hspot Examples.spot_quote []). reflexivity.
  - destruct Hempty as [Hfirst _]; [right; left; reflexivity|].
    apply (Hfirst Examples.gld_quote []). reflexivity.
  - destruct Hdown as [Hfirst _]; [left; reflexivity|].
    apply (Hfirst Examples.gld_quote []). reflexivity.
  - destruct Hnone as [_ [_ Hnothing]]; [right; left; reflexivity|].
    apply Hnothing. left. reflexivity.
  - apply Hnull. reflexivity.
Defined.



(** C6. When the cache holds an entry for the key of a fetch helper and
    the entry is not expired, the helper returns the cached value and the
    world is unchanged: no upstream request, no cache write. Hence, after
    a fetch that missed the cache and returned, the same fetch [d] ms
    later, with [d] within the TTL of its kind, returns the same value
    and issues no request. *)
Theorem refetch_within_ttl_hits_cache (env : Server.Environment) :
  (forall w e,
     Server.clock w - timestamp e <= ttl e ->
     (JSMap.get "current_gold_price" (Server.cache w) = Some e ->
      Server.fetchCurrentGoldPrice env w = (Server.Returned (data e), w))
     /\ (forall timeframe,
           JSMap.get ("historical_" ++ timeframe) (Server.cache w) = Some e ->
           Server.fetchHistoricalData env timeframe w = (Server.Returned (data e), w))
     /\ (forall date,
           JSMap.get ("date_" ++ date) (Server.cache w) = Some e ->
           Server.fetchDateSpecificData env date w = (Server.Returned (data e), w)))
  /\ (forall w p w1 d,
        fst (MemoryCache.get (Server.clock w) "current_gold_price" (Server.cache w)) = None ->
        Server.fetchCurrentGoldPrice env w = (Server.Returned p, w1) ->
        0 <= d <= CACHE_CONFIG.CURRENT_PRICE_TTL ->
        Server.fetchCurrentGoldPrice env (Server.advance d w1)
        = (Server.Returned p, Server.advance d w1)
        /\ Server.requests (Server.advance d w1)
           = (Server.requests w
              ++ [Server.QuoteRequest Server.GLD; Server.QuoteRequest Server.GCUSD])%list)
  /\ (forall timeframe w p w1 d start end_,
        fst (MemoryCache.get (Server.clock w) ("historical_" ++ timeframe) (Server.cache w)) = None ->
        Server.getDateRange env (Server.clock w) timeframe = (start, end_) ->
        Server.fetchHistoricalData env timeframe w = (Server.Returned p, w1) ->
        0 <= d <= CACHE_CONFIG.HISTORICAL_DATA_TTL ->
        Server.fetchHistoricalData env timeframe (Server.advance d w1)
        = (Server.Returned p, Server.advance d w1)
        /\ Server.requests (Server.advance d w1)
           = match Server.historical_price_full env (Server.clock w) Server.GCUSD
                     start end_ with
             | Server.Fulfilled _ =>
                 (Server.requests w
                  ++ [Server.HistoricalRequest Server.GCUSD start end_])%list
             | Server.Rejected =>
                 (Server.requests w
                  ++ [Server.HistoricalRequest Server.GCUSD start end_;
                      Server.HistoricalRequest Server.GLD start end_])%list
             end)
  /\ (forall date w p w1 d,
        fst (MemoryCache.get (Server.clock w) ("date_" ++ date) (Server.cache w)) = None ->
        Server.fetchDateSpecificData env date w = (Server.Returned p, w1) ->
        0 <= d <= CACHE_CONFIG.DATE_SPECIFIC_TTL ->
        Server.fetchDateSpecificData env date (Server.advance d w1)
        = (Server.Returned p, Server.advance d w1)
        /\ Server.requests (Server.advance d w1)
           = (Server.requests w
              ++ [Server.HistoricalRequest Server.GCUSD date date])%list).
Proof.
  split; [|split; [|split]].
  - intros w e Hage. split; [|split].
    + intros Hget. now apply fetchCurrentGoldPrice_hit.
    + intros timeframe Hget. now apply fetchHistoricalData_hit.
    + intros date Hget. now apply fetchDateSpecificData_hit.
  - intros w p w1 d Hmiss Hfetch Hd.
    destruct (fetchCurrentGoldPrice_stores env w p w1 Hmiss Hfetch) as [Hget Hreq].
    split; [|exact Hreq].
    apply (fetchCurrentGoldPrice_hit env (Server.advance d w1) _ Hget).
    cbn [Server.advance Server.clock timestamp ttl]. lia.
  - intros timeframe w p w1 d start end_ Hmiss Hrange Hfetch Hd.
    destruct (fetchHistoricalData_stores env timeframe w p w1 Hmiss Hfetch) as [Hget _].
    split.
    + apply (fetchHistoricalData_hit env timeframe (Server.advance d w1) _ Hget).
      cbn [Server.advance Server.clock timestamp ttl]. lia.
    + rewrite <- (fetchHistoricalData_requests env timeframe w start end_ Hmiss Hrange).
      now rewrite Hfetch.
  - intros date w p w1 d Hmiss Hfetch Hd.
    destruct (fetchDateSpecificData_stores env date w p w1 Hmiss Hfetch) as [Hget Hreq].
    split; [|exact Hreq].
    apply (fetchDateSpecificData_hit env date (Server.advance d w1) _ Hget).
    cbn [Server.advance Server.clock timestamp ttl]. lia.
Qed.

Lemma refetch_within_ttl_hits_cache_witness :
  (Server.fetchCurrentGoldPrice Examples.env_spot
     (Server.advance 300000
        (snd (Server.fetchCurrentGoldPrice Examples.env_spot Examples.world0)))
   = (Server.Returned (QuotePayload Examples.spot_quote),
      Server.advance 300000
        (snd (Server.fetchCurrentGoldPrice Examples.env_spot Examples.world0)))
   /\ Server.requests
        (Server.advance 300000
           (snd (Server.fetchCurrentGoldPrice Examples.env_spot Examples.world0)))
      = [Server.QuoteRequest Server.GLD; Server.QuoteRequest Server.GCUSD])
  /\ (Server.fetchHistoricalData Examples.env_spot_down "1M"
        (Server.advance 1800000
           (snd (Server.fetchHistoricalData Examples.env_spot_down "1M"
                   Examples.world0)))
      = (Server.Returned (SeriesPayload [Examples.day_record]),
         Server.advance 1800000
           (snd (Server.fetchHistoricalData Examples.env_spot_down "1M"
                   Examples.world0)))
      /\ Server.requests
           (Server.advance 1800000
              (snd (Server.fetchHistoricalData Examples.env_spot_down "1M"
                      Examples.world0)))
         = [Server.HistoricalRequest Server.GCUSD "2024-05-01" "2024-05-31";
            Server.HistoricalRequest Server.GLD "2024-05-01" "2024-05-31"])
  /\ (Server.fetchDateSpecificData Examples.env_spot "2024-05-31"
        (Server.advance 86400000
           (snd (Server.fetchDateSpecificData Examples.env_spot "2024-05-31"
                   Examples.world0)))
      = (Server.Returned (PointPayload Examples.day_record),
         Server.advance 86400000
           (snd (Server.fetchDateSpecificData Examples.env_spot "2024-05-31"
                   Examples.world0)))
      /\ Server.requests
           (Server.advance 86400000
              (snd (Server.fetchDateSpecificData Examples.env_spot "2024-05-31"
                      Examples.world0)))
         = [Server.HistoricalRequest Server.GCUSD "2024-05-31" "2024-05-31"]).
Proof.
  destruct (refetch_within_ttl_hits_cache Examples.env_spot)
    as [_ [Hcurrent [_ Hdate]]].
  destruct (refetch_within_ttl_hits_cache Examples.env_spot_down)
    as [_ [_ [Hhistorical _]]].
  split; [|split].
  - apply (Hcurrent Examples.world0).
    + reflexivity.
    + reflexivity.
    + unfold CACHE_CONFIG.CURRENT_PRICE_TTL. lia.
  - apply (Hhistorical "1M" Examples.world0 _ _ 1800000 "2024-05-01" "2024-05-31").
    + reflexivity.
    + reflexivity.
    + reflexivity.
    + unfold CACHE_CONFIG.HISTORICAL_DATA_TTL. lia.
  - apply (Hdate "2024-05-31" Examples.world0).
    + reflexivity.
    + reflexivity.
    + unfold CACHE_CONFIG.DATE_SPECIFIC_TTL. lia.
Defined.

(** C8. The [cached] field fails to tell a fresh fetch from a cache hit:
    on a server that has nothing cached, [GET /api/gold/current] issues
    the two quote requests, stores the quote, and then answers
    [cached: true], because the handler asks [cache.has] after
    [fetchCurrentGoldPrice] has written the entry. *)
Theorem cached_flag_true_after_fresh_fetch :
  fst (MemoryCache.get (Server.clock Examples.world0) "current_gold_price"
         (Server.cache Examples.world0)) = None
  /\ Server.get_api_gold_current Examples.env_spot oz Examples.world0
     = (Server.Json200
          (Server.mkCurrentBody (QuotePayload Examples.spot_quote)
             "per troy ounce" oz true),
        Server.mkWorld
          [("current_gold_price",
            mkCacheEntry (QuotePayload Examples.spot_quote) 40
              CACHE_CONFIG.CURRENT_PRICE_TTL "current_gold_price")]
          40
          [Server.QuoteRequest Server.GLD; Server.QuoteRequest Server.GCUSD]).
Proof.
  split; [reflexivity|].
  rewrite (get_api_gold_current_fresh Examples.env_spot oz Examples.world0
             (QuotePayload Examples.spot_quote)
             (snd (Server.fetchCurrentGoldPrice Examples.env_spot Examples.world0)));
    [reflexivity | reflexivity | reflexivity |].
  unfold CACHE_CONFIG.CURRENT_PRICE_TTL. cbn. lia.
Qed.

(* ================================================================== *)
(** * More on the cache store: round trips and composition             *)
(* ================================================================== *)

Section ReadFacts.
Context {T : Type}.
Implicit Types (m : MemoryCache.Store T) (k key : string) (e : CacheEntry T).

(** What [get] returns is read off the entry under the key. *)
Lemma MemoryCache_get_value now k m :
  fst (MemoryCache.get now k m) =
  match JSMap.get k m with
  | Some e => if MemoryCache.expired now e then None else Some (data e)
  | None => None
  end.
Proof.
  unfold MemoryCache.get, MemoryCache.bind, MemoryCache.cache_get.
  destruct (JSMap.get k m) as [e|]; [|reflexivity].
  destruct (MemoryCache.expired now e); reflexivity.
Qed.

Lemma MemoryCache_has_value now k m :
  fst (MemoryCache.has now k m) =
  match JSMap.get k m with
  | Some e => negb (MemoryCache.expired now e)
  | None => false
  end.
Proof.
  unfold MemoryCache.has, MemoryCache.bind, MemoryCache.cache_get.
  destruct (JSMap.get k m) as [e|]; [|reflexivity].
  destruct (MemoryCache.expired now e); reflexivity.
Qed.

Lemma expired_later now later e :
  now <= later -> MemoryCache.expired now e = true ->
  MemoryCache.expired later e = true.
Proof. rewrite !expired_true. lia. Qed.

(** After [get] missed, the store has no entry under the key. *)
Lemma MemoryCache_get_miss_absent now k m :
  fst (MemoryCache.get now k m) = None ->
  JSMap.get k (snd (MemoryCache.get now k m)) = None.
Proof.
  unfold MemoryCache.get, MemoryCache.bind, MemoryCache.cache_get.
  destruct (JSMap.get k m) as [e|] eqn:G; [|intros _; exact G].
  destruct (MemoryCache.expired now e); [|discriminate].
  intros _. apply JSMap_get_delete_same.
Qed.

Lemma JSMap_set_Forall (P : string * CacheEntry T -> Prop) k e m :
  P (k, e) -> Forall P m -> Forall P (JSMap.set k e m).
Proof.
  intros Hk. induction m as [|[k' e'] rest IH]; simpl; intros H.
  - now constructor.
  - inversion H as [|? ? Hp Hrest]; subst.
    destruct (String.eqb k k'); constructor; auto.
Qed.

Lemma filter_Forall {A} (P : A -> Prop) (f : A -> bool) (l : list A) :
  Forall P l -> Forall P (filter f l).
Proof.
  rewrite !Forall_forall. intros H x Hin. apply filter_In in Hin. apply H. tauto.
Qed.

(** A property of the stored entries that every new entry has holds of
    the store after any call. *)
Lemma call_Forall (P : string * CacheEntry T -> Prop) now (c : CacheCall T) m :
  (forall k d t, c = CallSet k d t -> P (k, mkCacheEntry d now t k)) ->
  Forall P m -> Forall P (call now c m).
Proof.
  intros Hnew Hm. destruct c as [k d t|k|k|k| |]; cbn [call].
  - rewrite MemoryCache_set_unfold. cbn [snd].
    apply JSMap_set_Forall; [now apply Hnew|].
    destruct (CACHE_CONFIG.MAX_CACHE_SIZE <=? JSMap.size m)%nat; auto.
    destruct (JSMap.first_key m) as [k0|]; auto.
    destruct (truthy_string k0); auto. now apply filter_Forall.
  - destruct (MemoryCache_get_store now k m) as [-> | ->];
      [assumption | now apply filter_Forall].
  - rewrite MemoryCache_has_store.
    destruct (MemoryCache_get_store now k m) as [-> | ->];
      [assumption | now apply filter_Forall].
  - now apply filter_Forall.
  - constructor.
  - unfold MemoryCache.cleanup, MemoryCache.bind, MemoryCache.cache_entries.
    rewrite forEach_delete. now apply filter_Forall.
Qed.

Lemma calls_Forall (P : string * CacheEntry T -> Prop)
  (cs : list (Z * CacheCall T)) m :
  (forall now k d t, In (now, CallSet k d t) cs -> P (k, mkCacheEntry d now t k)) ->
  Forall P m -> Forall P (calls cs m).
Proof.
  revert m. induction cs as [|[now c] cs IH]; intros m Hnew Hm; simpl; auto.
  apply IH.
  - intros now' k d t Hin. apply Hnew. now right.
  - apply call_Forall; auto. intros k d t ->. apply Hnew. now left.
Qed.

Lemma mapi_from_Forall {A B} (P : B -> Prop) (Q : A -> Prop)
  (f : nat -> A -> B) (l : list A) i :
  (forall j a, Q a -> P (f j a)) -> Forall Q l ->
  Forall P (MemoryCache.mapi_from i f l).
Proof.
  intros Hf. revert i. induction l as [|a l IH]; intros i H; simpl.
  - constructor.
  - inversion H; subst. constructor; auto.
Qed.

End ReadFacts.

(** X1. A value written with [set] at time [now] is what [get] returns at
    time [later] as long as [later - now <= ttl], whatever the store held
    before, and [get] then leaves the store as it is; once
    [later - now > ttl], [get] returns [null]. [has] answers [true] and
    [false] at the same times. *)
Theorem set_then_get {T} (now later : Z) (key : string) (d : T) (t : Z)
  (m : MemoryCache.Store T) :
  fst (MemoryCache.get later key (snd (MemoryCache.set now key d t m)))
  = (if later - now >? t then None else Some d)
  /\ fst (MemoryCache.has later key (snd (MemoryCache.set now key d t m)))
     = negb (later - now >? t)
  /\ (later - now <= t ->
      snd (MemoryCache.get later key (snd (MemoryCache.set now key d t m)))
      = snd (MemoryCache.set now key d t m)).
Proof.
  assert (G : JSMap.get key (snd (MemoryCache.set now key d t m))
              = Some (mkCacheEntry d now t key)).
  { rewrite MemoryCache_set_unfold. cbn [snd]. apply JSMap_get_set_same. }
  split; [|split].
  - rewrite MemoryCache_get_value, G. reflexivity.
  - rewrite MemoryCache_has_value, G. reflexivity.
  - intros Hage.
    rewrite (MemoryCache_get_fresh later key _ _ G); [reflexivity|].
    now apply expired_false.
Qed.

(** X2. [has(key)] is [true] exactly when [get(key)] at the same time
    returns a value, and the two calls leave the same store. *)
Theorem has_agrees_with_get {T} (now : Z) (key : string)
  (m : MemoryCache.Store T) :
  fst (MemoryCache.has now key m)
  = match fst (MemoryCache.get now key m) with
    | Some _ => true
    | None => false
    end
  /\ snd (MemoryCache.has now key m) = snd (MemoryCache.get now key m).
Proof.
  split; [|apply MemoryCache_has_store].
  rewrite MemoryCache_has_value, MemoryCache_get_value.
  destruct (JSMap.get key m) as [e|]; [|reflexivity].
  destruct (MemoryCache.expired now e); reflexivity.
Qed.

(** X3. [delete(key)] is idempotent: a second [delete] changes nothing.
    After it [get] and [has] miss the key at every time, every other key
    keeps its entry, and deleting a key that is not stored leaves the
    store as it is. *)
Theorem delete_is_idempotent_and_local {T} (key : string)
  (m : MemoryCache.Store T) :
  snd (MemoryCache.delete key (snd (MemoryCache.delete key m)))
  = snd (MemoryCache.delete key m)
  /\ (forall now,
        fst (MemoryCache.get now key (snd (MemoryCache.delete key m))) = None
        /\ fst (MemoryCache.has now key (snd (MemoryCache.delete key m))) = false)
  /\ (forall k', k' <> key ->
        JSMap.get k' (snd (MemoryCache.delete key m)) = JSMap.get k' m)
  /\ (JSMap.get key m = None -> snd (MemoryCache.delete key m) = m).
Proof.
  unfold MemoryCache.delete, MemoryCache.cache_delete. cbn [snd].
  split; [|split; [|split]].
  - apply JSMap_delete_absent, JSMap_get_delete_same.
  - intros now.
    rewrite MemoryCache_get_value, MemoryCache_has_value, JSMap_get_delete_same.
    split; reflexivity.
  - intros k' Hne. now apply JSMap_get_delete_other.
  - apply JSMap_delete_absent.
Qed.

Section LaterReads.
Context {T : Type}.
Implicit Types (m : MemoryCache.Store T) (k key : string).

Lemma get_none_later now later k m :
  now <= later ->
  fst (MemoryCache.get now k m) = None -> fst (MemoryCache.get later k m) = None.
Proof.
  intros Hclock. rewrite !MemoryCache_get_value.
  destruct (JSMap.get k m) as [e|]; [|reflexivity].
  destruct (MemoryCache.expired now e) eqn:X; [|discriminate].
  now rewrite (expired_later now later e Hclock X).
Qed.

Lemma get_after_get t1 t k0 k m :
  fst (MemoryCache.get t k (snd (MemoryCache.get t1 k0 m)))
  = if String.eqb k k0 then
      match fst (MemoryCache.get t1 k0 m) with
      | Some _ => fst (MemoryCache.get t k m)
      | None => None
      end
    else fst (MemoryCache.get t k m).
Proof.
  destruct (String.eqb_spec k k0) as [->|Hne].
  - rewrite !MemoryCache_get_value.
    unfold MemoryCache.get, MemoryCache.bind, MemoryCache.cache_get.
    destruct (JSMap.get k0 m) as [e|] eqn:G.
    + destruct (MemoryCache.expired t1 e);
        cbn [snd MemoryCache.cache_delete MemoryCache.ret].
      * now rewrite JSMap_get_delete_same.
      * now rewrite G.
    + cbn [snd MemoryCache.ret]. now rewrite G.
  - rewrite !(MemoryCache_get_value t k).
    destruct (MemoryCache_get_store t1 k0 m) as [-> | ->]; [reflexivity|].
    now rewrite JSMap_get_delete_other.
Qed.

Lemma get_after_delete t k0 k m :
  fst (MemoryCache.get t k (JSMap.delete k0 m))
  = if String.eqb k k0 then None else fst (MemoryCache.get t k m).
Proof.
  rewrite !MemoryCache_get_value.
  destruct (String.eqb_spec k k0) as [->|Hne].
  - now rewrite JSMap_get_delete_same.
  - now rewrite JSMap_get_delete_other.
Qed.

Lemma get_after_cleanup t1 t k m :
  JSMap.wf m ->
  fst (MemoryCache.get t k (snd (MemoryCache.cleanup t1 m)))
  = match fst (MemoryCache.get t1 k m) with
    | Some _ => fst (MemoryCache.get t k m)
    | None => None
    end.
Proof.
  intros Hwf. rewrite !MemoryCache_get_value.
  rewrite (MemoryCache_cleanup_filter t1 m Hwf).
  rewrite (JSMap_get_filter (fun e => negb (MemoryCache.expired t1 e)) k m Hwf).
  destruct (JSMap.get k m) as [e|]; [|reflexivity].
  destruct (MemoryCache.expired t1 e); reflexivity.
Qed.

(** A call that is not a [set], made at [now] or later, keeps two stores
    that read the same reading the same. *)
Lemma call_same_reads now t1 (c : CacheCall T) m1 m2 :
  JSMap.wf m1 -> JSMap.wf m2 -> same_reads now m1 m2 -> now <= t1 ->
  set_keys [(t1, c)] = [] ->
  same_reads now (call t1 c m1) (call t1 c m2).
Proof.
  intros Hwf1 Hwf2 R Ht1 Hc k t Ht.
  destruct c as [k0 d t0|k0|k0|k0| |]; cbn [call set_keys] in *.
  - discriminate.
  - rewrite !get_after_get, (R k0 t1 Ht1), (R k t Ht). reflexivity.
  - rewrite !MemoryCache_has_store.
    rewrite !get_after_get, (R k0 t1 Ht1), (R k t Ht). reflexivity.
  - unfold MemoryCache.delete, MemoryCache.cache_delete. cbn [snd].
    rewrite !get_after_delete, (R k t Ht). reflexivity.
  - reflexivity.
  - rewrite !get_after_cleanup by assumption.
    rewrite (R k t1 Ht1), (R k t Ht). reflexivity.
Qed.

Lemma calls_same_reads now (cs : list (Z * CacheCall T)) m1 m2 :
  JSMap.wf m1 -> JSMap.wf m2 -> same_reads now m1 m2 ->
  set_keys cs = [] -> Forall (fun c => now <= fst c) cs ->
  same_reads now (calls cs m1) (calls cs m2).
Proof.
  revert m1 m2. induction cs as [|[t1 c] cs IH]; intros m1 m2 Hwf1 Hwf2 R Hsets Ht;
    cbn [calls]; [assumption|].
  inversion Ht as [|? ? Ht1 Hrest]; subst. cbn [fst] in Ht1.
  assert (Hc : set_keys [(t1, c)] = [] /\ set_keys cs = []).
  { destruct c; cbn [set_keys] in *; try (split; [reflexivity | assumption]).
    discriminate. }
  destruct Hc as [Hc Hsets'].
  apply IH; auto using call_wf.
  now apply call_same_reads.
Qed.

Lemma same_reads_after_get now key m :
  same_reads now (snd (MemoryCache.get now key m)) m.
Proof.
  intros k t Ht. rewrite get_after_get.
  destruct (String.eqb_spec k key) as [->|Hne]; [|reflexivity].
  destruct (fst (MemoryCache.get now key m)) eqn:G; [reflexivity|].
  symmetry. now apply get_none_later with now.
Qed.

Lemma same_reads_after_cleanup now m :
  JSMap.wf m -> same_reads now (snd (MemoryCache.cleanup now m)) m.
Proof.
  intros Hwf k t Ht. rewrite get_after_cleanup by assumption.
  destruct (fst (MemoryCache.get now k m)) eqn:G; [reflexivity|].
  symmetry. now apply get_none_later with now.
Qed.

End LaterReads.

(** X4. Reading does not change what is read later, as long as no [set]
    comes in between: when the clock does not run backwards, the lazy
    deletion done by a [get] or a [has] of any key leaves the result of
    a later [get], after any calls of [get], [has], [delete], [clear]
    and sweeps in between, as it would have been without that read. *)
Theorem read_keeps_later_reads {T} (now later : Z) (key k' : string)
  (m : MemoryCache.Store T) (cs : list (Z * CacheCall T)) :
  JSMap.wf m ->
  set_keys cs = [] ->
  Forall (fun c => now <= fst c) cs ->
  now <= later ->
  fst (MemoryCache.get later k' (calls cs (snd (MemoryCache.get now key m))))
  = fst (MemoryCache.get later k' (calls cs m))
  /\ fst (MemoryCache.get later k' (calls cs (snd (MemoryCache.has now key m))))
     = fst (MemoryCache.get later k' (calls cs m)).
Proof.
  intros Hwf Hsets Hcs Hclock. rewrite MemoryCache_has_store.
  assert (G : fst (MemoryCache.get later k'
                     (calls cs (snd (MemoryCache.get now key m))))
              = fst (MemoryCache.get later k' (calls cs m))).
  { apply (calls_same_reads now cs); auto.
    - now apply MemoryCache_get_wf.
    - apply same_reads_after_get. }
  split; exact G.
Qed.

Lemma read_keeps_later_reads_witness :
  fst (MemoryCache.get 1500 "k"
         (calls [(1200, CallCleanup); (1300, CallHas "j")]
            (snd (MemoryCache.get 1001 "k" Examples.two_entries))))
  = fst (MemoryCache.get 1500 "k"
           (calls [(1200, CallCleanup); (1300, CallHas "j")] Examples.two_entries))
  /\ fst (MemoryCache.get 1500 "j"
            (calls [(1200, CallCleanup); (1300, CallHas "j")]
               (snd (MemoryCache.has 1001 "k" Examples.two_entries))))
     = fst (MemoryCache.get 1500 "j"
              (calls [(1200, CallCleanup); (1300, CallHas "j")] Examples.two_entries)).
Proof.
  assert (Hwf : JSMap.wf Examples.two_entries) by (apply calls_wf; constructor).
  assert (Hcs : Forall (fun c : Z * CacheCall nat => 1001 <= fst c)
                  [(1200, CallCleanup); (1300, CallHas "j")])
    by (repeat constructor; simpl; lia).
  split.
  - apply (read_keeps_later_reads 1001 1500 "k" "k" Examples.two_entries
             [(1200, CallCleanup); (1300, CallHas "j")] Hwf eq_refl Hcs). lia.
  - apply (read_keeps_later_reads 1001 1500 "k" "j" Examples.two_entries
             [(1200, CallCleanup); (1300, CallHas "j")] Hwf eq_refl Hcs). lia.
Defined.

(** X5. The sweep is invisible to readers, as long as no [set] comes in
    between: when the clock does not run backwards, a later [get], after
    any calls of [get], [has], [delete], [clear] and sweeps in between,
    returns what it would have returned without the sweep. *)
Theorem sweep_keeps_later_reads {T} (now later : Z) (k : string)
  (m : MemoryCache.Store T) (cs : list (Z * CacheCall T)) :
  JSMap.wf m ->
  set_keys cs = [] ->
  Forall (fun c => now <= fst c) cs ->
  now <= later ->
  fst (MemoryCache.get later k (calls cs (snd (MemoryCache.cleanup now m))))
  = fst (MemoryCache.get later k (calls cs m)).
Proof.
  intros Hwf Hsets Hcs Hclock.
  apply (calls_same_reads now cs); auto.
  - exact (call_wf now CallCleanup m Hwf).
  - now apply same_reads_after_cleanup.
Qed.

Lemma sweep_keeps_later_reads_witness :
  fst (MemoryCache.get 1500 "k"
         (calls [(1200, CallGet "j"); (1300, CallDelete "i")]
            (snd (MemoryCache.cleanup 1001 Examples.two_entries))))
  = fst (MemoryCache.get 1500 "k"
           (calls [(1200, CallGet "j"); (1300, CallDelete "i")] Examples.two_entries))
  /\ fst (MemoryCache.get 1500 "j"
            (calls [(1200, CallGet "j"); (1300, CallDelete "i")]
               (snd (MemoryCache.cleanup 1001 Examples.two_entries))))
     = fst (MemoryCache.get 1500 "j"
              (calls [(1200, CallGet "j"); (1300, CallDelete "i")] Examples.two_entries)).
Proof.
  assert (Hwf : JSMap.wf Examples.two_entries) by (apply calls_wf; constructor).
  assert (Hcs : Forall (fun c : Z * CacheCall nat => 1001 <= fst c)
                  [(1200, CallGet "j"); (1300, CallDelete "i")])
    by (repeat constructor; simpl; lia).
  split.
  - apply (sweep_keeps_later_reads 1001 1500 "k" Examples.two_entries
             [(1200, CallGet "j"); (1300, CallDelete "i")] Hwf eq_refl Hcs). lia.
  - apply (sweep_keeps_later_reads 1001 1500 "j" Examples.two_entries
             [(1200, CallGet "j"); (1300, CallDelete "i")] Hwf eq_refl Hcs). lia.
Defined.

(** X6. A second sweep at the same time removes nothing more, a sweep
    never makes the store larger, and right after a sweep [getStats],
    read at the time of the sweep, reports no entry as expired. *)
Theorem sweep_is_idempotent {T} (now : Z) (m : MemoryCache.Store T) :
  JSMap.wf m ->
  snd (MemoryCache.cleanup now (snd (MemoryCache.cleanup now m)))
  = snd (MemoryCache.cleanup now m)
  /\ (JSMap.size (snd (MemoryCache.cleanup now m)) <= JSMap.size m)%nat
  /\ Forall (fun s => stat_expired s = false)
       (stats_entries
          (fst (MemoryCache.getStats (fun _ => now)
                  (snd (MemoryCache.cleanup now m))))).
Proof.
  intros Hwf.
  assert (Hwf' : JSMap.wf (snd (MemoryCache.cleanup now m))).
  { exact (call_wf now CallCleanup m Hwf). }
  rewrite (MemoryCache_cleanup_filter now _ Hwf').
  rewrite (MemoryCache_cleanup_filter now m Hwf).
  split; [|split].
  - rewrite filter_twice. apply filter_ext. intros p. apply andb_diag.
  - apply filter_length_le.
  - unfold MemoryCache.getStats, MemoryCache.bind, MemoryCache.cache_size,
      MemoryCache.cache_entries, MemoryCache.ret, JSMap.entries.
    cbn [fst stats_entries].
    apply mapi_from_Forall
      with (Q := fun p => MemoryCache.expired now (snd p) = false).
    + intros j p Hp. cbn [stat_expired]. exact Hp.
    + apply Forall_forall. intros p Hin. apply filter_In in Hin.
      destruct Hin as [_ Hf]. now apply negb_true_iff in Hf.
Qed.

Lemma sweep_is_idempotent_witness :
  snd (MemoryCache.cleanup 1001 (snd (MemoryCache.cleanup 1001 Examples.two_entries)))
  = snd (MemoryCache.cleanup 1001 Examples.two_entries)
  /\ (JSMap.size (snd (MemoryCache.cleanup 1001 Examples.two_entries))
      <= JSMap.size Examples.two_entries)%nat.
Proof.
  assert (Hwf : JSMap.wf Examples.two_entries) by (apply calls_wf; constructor).
  destruct (sweep_is_idempotent 1001 Examples.two_entries Hwf) as [Hi [Hs _]].
  split; [exact Hi | exact Hs].
Defined.

(* ================================================================== *)
(** * More on the cache store: invariants over any sequence of calls   *)
(* ================================================================== *)

Lemma calls_app {T} (cs cs' : list (Z * CacheCall T)) (m : MemoryCache.Store T) :
  calls (cs ++ cs') m = calls cs' (calls cs m).
Proof.
  revert m. induction cs as [|[now c] cs IH]; intros m; simpl; auto.
Qed.

Lemma set_keys_app {T} (cs cs' : list (Z * CacheCall T)) :
  set_keys (cs ++ cs') = (set_keys cs ++ set_keys cs')%list.
Proof.
  induction cs as [|[now c] cs IH]; simpl; auto.
  destruct c; simpl; now rewrite ?IH.
Qed.

Lemma set_keys_length_le {T} (cs : list (Z * CacheCall T)) :
  (List.length (set_keys cs) <= List.length cs)%nat.
Proof.
  induction cs as [|[now c] cs IH]; simpl; auto.
  destruct c; simpl; lia.
Qed.

Lemma MAX_CACHE_SIZE_positive : (0 < CACHE_CONFIG.MAX_CACHE_SIZE)%nat.
Proof. unfold CACHE_CONFIG.MAX_CACHE_SIZE. apply Nat.lt_0_succ. Qed.

Lemma In_skipn {A} (x : A) n (l : list A) : In x (skipn n l) -> In x l.
Proof.
  intros H. rewrite <- (firstn_skipn n l). apply in_or_app. now right.
Qed.

Lemma tl_skipn {A} n (l : list A) : tl (skipn n l) = skipn (S n) l.
Proof.
  change (S n) with (1 + n)%nat. rewrite <- skipn_skipn.
  now destruct (skipn n l).
Qed.

(** X7. Whatever the sequence of calls, an entry found under a key
    carries that key in its own [key] field. *)
Theorem stored_entry_records_its_key {T} (cs : list (Z * CacheCall T))
  (k : string) (e : CacheEntry T) :
  JSMap.get k (calls cs []) = Some e -> key e = k.
Proof.
  intros Hget. apply JSMap_get_some_in in Hget.
  assert (H : Forall (fun p : string * CacheEntry T => key (snd p) = fst p)
                (calls cs [])).
  { apply calls_Forall; [|constructor]. intros now k' d t _. reflexivity. }
  rewrite Forall_forall in H. exact (H _ Hget).
Qed.

Lemma stored_entry_records_its_key_witness :
  key (mkCacheEntry 7%nat 200 5000 "j") = "j".
Proof.
  apply (stored_entry_records_its_key
           [(0, CallSet "k" 100%nat 1000); (200, CallSet "j" 7%nat 5000)] "j").
  reflexivity.
Defined.

(** X8. When every call so far happened at or before time [t0] and the
    clock reads [t0] or later, every age that [getStats] reports is
    non-negative. *)
Theorem stats_ages_are_nonnegative {T} (cs : list (Z * CacheCall T))
  (t0 : Z) (clock : nat -> Z) :
  Forall (fun c => fst c <= t0) cs ->
  (forall n, t0 <= clock n) ->
  Forall (fun s => 0 <= stat_age s)
    (stats_entries (fst (MemoryCache.getStats clock (calls cs [])))).
Proof.
  intros Hcs Hclock.
  assert (H : Forall (fun p : string * CacheEntry T => timestamp (snd p) <= t0)
                (calls cs [])).
  { apply calls_Forall; [|constructor]. intros now k d t Hin. cbn [snd timestamp].
    rewrite Forall_forall in Hcs. exact (Hcs _ Hin). }
  unfold MemoryCache.getStats, MemoryCache.bind, MemoryCache.cache_size,
    MemoryCache.cache_entries, MemoryCache.ret, JSMap.entries.
  cbn [fst stats_entries].
  apply mapi_from_Forall with (Q := fun p => timestamp (snd p) <= t0); [|exact H].
  intros j p Hp. cbn [stat_age]. specialize (Hclock (2 * j)%nat). lia.
Qed.

Lemma stats_ages_are_nonnegative_witness :
  Forall (fun s => 0 <= stat_age s)
    (stats_entries
       (fst (MemoryCache.getStats (fun n => 200 + Z.of_nat n)
               (calls [(0, CallSet "k" 100%nat 1000);
                       (200, CallSet "j" 7%nat 5000)] [])))).
Proof.
  apply (stats_ages_are_nonnegative
           [(0, CallSet "k" 100%nat 1000); (200, CallSet "j" 7%nat 5000)] 200).
  - repeat constructor; simpl; lia.
  - intros n. lia.
Defined.

(** X9. One call makes the store at most one entry larger, and only
    [set] can make it larger at all: after [get], [has], [delete],
    [clear] or a sweep the store is no larger than before. *)
Theorem only_set_grows_the_store {T} (now : Z) (c : CacheCall T)
  (m : MemoryCache.Store T) :
  (JSMap.size (call now c m) <= S (JSMap.size m))%nat
  /\ ((forall k d t, c <> CallSet k d t) ->
      (JSMap.size (call now c m) <= JSMap.size m)%nat).
Proof.
  assert (Hget : forall k, (JSMap.size (snd (MemoryCache.get now k m))
                            <= JSMap.size m)%nat).
  { intros k. destruct (MemoryCache_get_store now k m) as [-> | ->];
      [lia | apply JSMap_size_delete_le]. }
  assert (Hsweep : (JSMap.size (snd (MemoryCache.cleanup now m)) <= JSMap.size m)%nat).
  { unfold MemoryCache.cleanup, MemoryCache.bind, MemoryCache.cache_entries.
    rewrite forEach_delete. apply filter_length_le. }
  destruct c as [k d t|k|k|k| |]; cbn [call].
  - split; [|intros H; now destruct (H k d t)].
    rewrite MemoryCache_set_unfold. cbn [snd]. rewrite JSMap_size_set.
    assert (Hx : (JSMap.size
                    (if (CACHE_CONFIG.MAX_CACHE_SIZE <=? JSMap.size m)%nat
                     then match JSMap.first_key m with
                          | Some k0 => if truthy_string k0
                                       then JSMap.delete k0 m else m
                          | None => m
                          end
                     else m) <= JSMap.size m)%nat).
    { destruct (CACHE_CONFIG.MAX_CACHE_SIZE <=? JSMap.size m)%nat; [|lia].
      destruct (JSMap.first_key m) as [k0|]; [|lia].
      destruct (truthy_string k0); [apply JSMap_size_delete_le | lia]. }
    destruct (JSMap.has k _); lia.
  - specialize (Hget k). split; [lia | intros _; exact Hget].
  - rewrite MemoryCache_has_store. specialize (Hget k).
    split; [lia | intros _; exact Hget].
  - pose proof (JSMap_size_delete_le k m) as Hd.
    unfold MemoryCache.delete, MemoryCache.cache_delete. cbn [snd].
    split; [lia | intros _; exact Hd].
  - unfold MemoryCache.clear, MemoryCache.cache_clear, JSMap.clear, JSMap.size.
    cbn [snd List.length]. split; [lia | intros _; lia].
  - split; [lia | intros _; exact Hsweep].
Qed.

(** X10. Eviction is first in, first out. After a sequence of [set]s with
    distinct non-empty keys the store holds the keys of the last
    [MAX_CACHE_SIZE] calls, in the order of the calls (all of them when
    there were fewer). *)
Theorem eviction_is_first_in_first_out {T} (cs : list (Z * CacheCall T)) :
  List.length (set_keys cs) = List.length cs ->
  NoDup (set_keys cs) ->
  Forall (fun k => k <> "") (set_keys cs) ->
  JSMap.keys (calls cs [])
  = skipn (List.length cs - CACHE_CONFIG.MAX_CACHE_SIZE) (set_keys cs).
Proof.
  induction cs as [|[now c] cs IH] using rev_ind; intros Hlen Hnd Hne.
  - reflexivity.
  - rewrite set_keys_app, length_app in Hlen. rewrite length_app in Hlen.
    pose proof (set_keys_length_le cs) as Hle.
    rewrite set_keys_app in Hnd, Hne. rewrite calls_app, set_keys_app.
    destruct c as [k d t|k|k|k| |]; cbn [set_keys List.length] in Hlen;
      try lia.
    cbn [set_keys] in *. cbn [calls call].
    apply NoDup_remove in Hnd. rewrite app_nil_r in Hnd. destruct Hnd as [Hnd Hk].
    apply Forall_app in Hne. destruct Hne as [Hne _].
    assert (Hlen' : List.length (set_keys cs) = List.length cs) by lia.
    specialize (IH Hlen' Hnd Hne).
    set (m := calls cs []) in *.
    assert (Hwf : JSMap.wf m) by (apply calls_wf; constructor).
    assert (Hsize : JSMap.size m
                    = (List.length cs
                       - (List.length cs - CACHE_CONFIG.MAX_CACHE_SIZE))%nat).
    { unfold JSMap.size. rewrite <- (length_map fst m).
      fold (JSMap.keys m). rewrite IH, length_skipn. lia. }
    rewrite length_app. cbn [List.length].
    rewrite MemoryCache_set_unfold. cbn [snd].
    pose proof MAX_CACHE_SIZE_positive as Hpos.
    destruct (Nat.leb_spec CACHE_CONFIG.MAX_CACHE_SIZE (JSMap.size m)) as [Hfull|Hroom].
    + destruct m as [|[k0 e0] rest] eqn:Hm.
      { unfold JSMap.size in Hfull. simpl in Hfull. lia. }
      cbn [JSMap.first_key].
      assert (Hk0 : In k0 (set_keys cs)).
      { apply In_skipn with (n := (List.length cs - CACHE_CONFIG.MAX_CACHE_SIZE)%nat).
        rewrite <- IH. now left. }
      assert (Ht : truthy_string k0 = true).
      { rewrite Forall_forall in Hne. specialize (Hne _ Hk0).
        destruct k0; [congruence | reflexivity]. }
      rewrite Ht, (JSMap_delete_first k0 e0 rest Hwf).
      assert (Hrest : JSMap.keys rest
                      = skipn (S (List.length cs - CACHE_CONFIG.MAX_CACHE_SIZE))
                          (set_keys cs)).
      { rewrite <- tl_skipn, <- IH. reflexivity. }
      rewrite JSMap_keys_set. unfold JSMap.has.
      assert (Hnone : JSMap.get k rest = None).
      { apply JSMap_get_none_not_in. rewrite Hrest. intros Hin.
        apply Hk. now apply In_skipn in Hin. }
      rewrite Hnone, Hrest, skipn_app.
      replace (List.length cs + 1 - CACHE_CONFIG.MAX_CACHE_SIZE)%nat
        with (S (List.length cs - CACHE_CONFIG.MAX_CACHE_SIZE)) by lia.
      replace (S (List.length cs - CACHE_CONFIG.MAX_CACHE_SIZE)
               - List.length (set_keys cs))%nat with 0%nat by lia.
      reflexivity.
    + rewrite JSMap_keys_set. unfold JSMap.has.
      assert (Hzero : (List.length cs - CACHE_CONFIG.MAX_CACHE_SIZE = 0)%nat) by lia.
      rewrite Hzero, skipn_0 in IH.
      assert (Hnone : JSMap.get k m = None).
      { apply JSMap_get_none_not_in. now rewrite IH. }
      rewrite Hnone, IH.
      replace (List.length cs + 1 - CACHE_CONFIG.MAX_CACHE_SIZE)%nat with 0%nat by lia.
      reflexivity.
Qed.

Lemma distinct_strings_NoDup (l : list string) :
  distinct_strings l = true -> NoDup l.
Proof.
  induction l as [|x rest IH]; simpl; intros H; constructor.
  - apply andb_true_iff in H. destruct H as [H _].
    apply negb_true_iff in H. intros Hin.
    assert (E : existsb (String.eqb x) rest = true).
    { apply existsb_exists. exists x. split; [exact Hin | apply String.eqb_refl]. }
    congruence.
  - apply IH. apply andb_true_iff in H. tauto.
Qed.

Lemma eviction_is_first_in_first_out_witness :
  JSMap.keys (calls (Examples.fill CACHE_CONFIG.MAX_CACHE_SIZE
                     ++ [(1, CallSet "one more" 0%nat 60000)]) [])
  = skipn (List.length (Examples.fill CACHE_CONFIG.MAX_CACHE_SIZE
                        ++ [(1, CallSet "one more" 0%nat 60000)])
           - CACHE_CONFIG.MAX_CACHE_SIZE)
      (set_keys (Examples.fill CACHE_CONFIG.MAX_CACHE_SIZE
                 ++ [(1, CallSet "one more" 0%nat 60000)])).
Proof.
  apply (eviction_is_first_in_first_out
           (Examples.fill CACHE_CONFIG.MAX_CACHE_SIZE
            ++ [(1, CallSet "one more" 0%nat 60000)])).
  - vm_compute. reflexivity.
  - apply distinct_strings_NoDup. vm_compute. reflexivity.
  - apply Forall_forall. intros k Hin Hk. subst k.
    assert (Hall : forallb truthy_string
                     (set_keys (Examples.fill CACHE_CONFIG.MAX_CACHE_SIZE
                                ++ [(1, CallSet "one more" 0%nat 60000)])) = true)
      by (vm_compute; reflexivity).
    rewrite forallb_forall in Hall. specialize (Hall _ Hin). discriminate.
Defined.

Lemma size_bounded_without_empty_key_witness :
  (JSMap.size (calls (Examples.fill CACHE_CONFIG.MAX_CACHE_SIZE
                      ++ [(1%Z, CallSet "one more" 0%nat 60000%Z); (2%Z, CallHas "0")])
                 [])
   <= CACHE_CONFIG.MAX_CACHE_SIZE)%nat.
Proof.
  apply (size_bounded_without_empty_key
           (Examples.fill CACHE_CONFIG.MAX_CACHE_SIZE
            ++ [(1%Z, CallSet "one more" 0%nat 60000%Z); (2%Z, CallHas "0")])).
  apply Forall_forall. intros k Hin Hk. subst k.
  assert (Hall : forallb truthy_string
                   (set_keys (Examples.fill CACHE_CONFIG.MAX_CACHE_SIZE
                              ++ [(1%Z, CallSet "one more" 0%nat 60000%Z);
                                  (2%Z, CallHas "0")])) = true)
    by (vm_compute; reflexivity).
  rewrite forallb_forall in Hall. specialize (Hall _ Hin). discriminate.
Defined.

(* ================================================================== *)
(** * More on the fetch helpers                                        *)
(* ================================================================== *)

Lemma on_cache_get_eq key w :
  Server.on_cache (fun now => MemoryCache.get now key) w
  = (Server.Returned (fst (MemoryCache.get (Server.clock w) key (Server.cache w))),
     after_miss key w).
Proof.
  unfold Server.on_cache, after_miss.
  now destruct (MemoryCache.get (Server.clock w) key (Server.cache w)).
Qed.

(** A fetch helper whose [cache.get] returns a value returns it at once. *)
Lemma fetchCurrentGoldPrice_value env w d :
  fst (MemoryCache.get (Server.clock w) "current_gold_price" (Server.cache w)) = Some d ->
  Server.fetchCurrentGoldPrice env w
  = (Server.Returned d, after_miss "current_gold_price" w).
Proof.
  intros H. unfold Server.fetchCurrentGoldPrice.
  unfold Server.bind at 1. now rewrite on_cache_get_eq, H.
Qed.

Lemma fetchHistoricalData_value env timeframe w d :
  fst (MemoryCache.get (Server.clock w) ("historical_" ++ timeframe) (Server.cache w)) = Some d ->
  Server.fetchHistoricalData env timeframe w
  = (Server.Returned d, after_miss ("historical_" ++ timeframe) w).
Proof.
  intros H. unfold Server.fetchHistoricalData.
  unfold Server.bind at 1. now rewrite on_cache_get_eq, H.
Qed.

Lemma fetchDateSpecificData_value env date w d :
  fst (MemoryCache.get (Server.clock w) ("date_" ++ date) (Server.cache w)) = Some d ->
  Server.fetchDateSpecificData env date w
  = (Server.Returned d, after_miss ("date_" ++ date) w).
Proof.
  intros H. unfold Server.fetchDateSpecificData.
  unfold Server.bind at 1. now rewrite on_cache_get_eq, H.
Qed.

Lemma fetchCurrentGoldPrice_store env w :
  store_after_fetch "current_gold_price" CACHE_CONFIG.CURRENT_PRICE_TTL w
    (Server.fetchCurrentGoldPrice env w).
Proof.
  unfold store_after_fetch. cbv zeta.
  destruct (fst (MemoryCache.get (Server.clock w) "current_gold_price"
                   (Server.cache w))) as [d|] eqn:G.
  - rewrite (fetchCurrentGoldPrice_value env w d G). now left.
  - rewrite (fetchCurrentGoldPrice_miss env w G). cbv zeta.
    destruct (selected_quote _ _) as [[q|]|e]; cbn [fst snd];
      [right | split | split]; reflexivity.
Qed.

Lemma fetchHistoricalData_store env timeframe w :
  store_after_fetch ("historical_" ++ timeframe) CACHE_CONFIG.HISTORICAL_DATA_TTL w
    (Server.fetchHistoricalData env timeframe w).
Proof.
  unfold store_after_fetch. cbv zeta.
  destruct (fst (MemoryCache.get (Server.clock w) ("historical_" ++ timeframe)
                   (Server.cache w))) as [d|] eqn:G.
  - rewrite (fetchHistoricalData_value env timeframe w d G). now left.
  - destruct (Server.getDateRange env (Server.clock w) timeframe) as [start end_] eqn:R.
    rewrite (fetchHistoricalData_miss env timeframe w start end_ G R). cbv zeta.
    unfold conclude_historical.
    destruct (Server.historical_price_full env (Server.clock w) Server.GCUSD start end_)
      as [body|].
    + destruct (Server.assign_historical body []); cbn [fst snd];
        [split | right]; reflexivity.
    + destruct (Server.historical_price_full env _ Server.GLD start end_) as [body|];
        [|split; reflexivity].
      destruct (Server.assign_historical body []); cbn [fst snd];
        [split | right]; reflexivity.
Qed.

Lemma fetchDateSpecificData_store env date w :
  store_after_fetch ("date_" ++ date) CACHE_CONFIG.DATE_SPECIFIC_TTL w
    (Server.fetchDateSpecificData env date w).
Proof.
  unfold store_after_fetch. cbv zeta.
  destruct (fst (MemoryCache.get (Server.clock w) ("date_" ++ date)
                   (Server.cache w))) as [d|] eqn:G.
  - rewrite (fetchDateSpecificData_value env date w d G). now left.
  - rewrite (fetchDateSpecificData_miss env date w G). cbv zeta.
    destruct (Server.historical_price_full env (Server.clock w) Server.GCUSD date date)
      as [[[|p l]|[[|p l]|]|]|]; cbn [fst snd];
      try (split; reflexivity); right; reflexivity.
Qed.

Lemma get_frame {T} now key k' (m : MemoryCache.Store T) :
  k' <> key ->
  JSMap.get k' (snd (MemoryCache.get now key m)) = JSMap.get k' m.
Proof.
  intros Hne. destruct (MemoryCache_get_store now key m) as [-> | ->];
    [reflexivity | now apply JSMap_get_delete_other].
Qed.

Lemma get_size_le {T} now key (m : MemoryCache.Store T) :
  (JSMap.size (snd (MemoryCache.get now key m)) <= JSMap.size m)%nat.
Proof.
  destruct (MemoryCache_get_store now key m) as [-> | ->];
    [lia | apply JSMap_size_delete_le].
Qed.

Lemma set_frame_below_capacity {T} now key (d : T) t k' (m : MemoryCache.Store T) :
  (JSMap.size m < CACHE_CONFIG.MAX_CACHE_SIZE)%nat -> k' <> key ->
  JSMap.get k' (snd (MemoryCache.set now key d t m)) = JSMap.get k' m.
Proof.
  intros Hroom Hne. rewrite MemoryCache_set_unfold. cbn [snd].
  apply Nat.leb_gt in Hroom. rewrite Hroom.
  now apply JSMap_get_set_other.
Qed.

(** Below capacity, a store as a fetch helper leaves it agrees with the
    store before on every key but the helper's own. *)
Lemma store_after_fetch_frame key ttl w r k' :
  store_after_fetch key ttl w r ->
  (JSMap.size (Server.cache w) < CACHE_CONFIG.MAX_CACHE_SIZE)%nat ->
  k' <> key ->
  JSMap.get k' (Server.cache (snd r)) = JSMap.get k' (Server.cache w).
Proof.
  unfold store_after_fetch. cbv zeta. intros H Hroom Hne.
  pose proof (get_size_le (Server.clock w) key (Server.cache w)) as Hle.
  destruct (fst r) as [p|e].
  - destruct H as [-> | ->].
    + now apply get_frame.
    + rewrite set_frame_below_capacity by (assumption || lia).
      now apply get_frame.
  - destruct H as [-> _]. now apply get_frame.
Qed.

(** X12. On a cache miss [fetchDateSpecificData] issues exactly one
    request, to GCUSD with [from] and [to] both the date, and never falls
    back to GLD. It returns the first record of a bare array or of the
    array under [historical]; an empty array, an object without
    [historical] and a falsy body make it throw
    ['No data found for date <date>']; a rejected request makes it throw
    that rejection. *)
Theorem fetchDateSpecificData_single_source (env : Server.Environment)
  (date : string) (w : Server.World) :
  fst (MemoryCache.get (Server.clock w) ("date_" ++ date) (Server.cache w)) = None ->
  Server.requests (snd (Server.fetchDateSpecificData env date w))
  = (Server.requests w ++ [Server.HistoricalRequest Server.GCUSD date date])%list
  /\ (forall p l,
        Server.historical_price_full env (Server.clock w) Server.GCUSD date date
        = Server.Fulfilled (Server.BodyArray (p :: l))
        \/ Server.historical_price_full env (Server.clock w) Server.GCUSD date date
           = Server.Fulfilled (Server.BodyObject (Some (p :: l))) ->
        fst (Server.fetchDateSpecificData env date w)
        = Server.Returned (PointPayload p))
  /\ (Server.historical_price_full env (Server.clock w) Server.GCUSD date date
      = Server.Fulfilled (Server.BodyArray [])
      \/ Server.historical_price_full env (Server.clock w) Server.GCUSD date date
         = Server.Fulfilled (Server.BodyObject (Some []))
      \/ Server.historical_price_full env (Server.clock w) Server.GCUSD date date
         = Server.Fulfilled (Server.BodyObject None)
      \/ Server.historical_price_full env (Server.clock w) Server.GCUSD date date
         = Server.Fulfilled Server.BodyFalsy ->
      fst (Server.fetchDateSpecificData env date w)
      = Server.Thrown (Server.JsError ("No data found for date " ++ date)))
  /\ (Server.historical_price_full env (Server.clock w) Server.GCUSD date date
      = Server.Rejected ->
      fst (Server.fetchDateSpecificData env date w)
      = Server.Thrown
          (Server.AxiosError (Server.HistoricalRequest Server.GCUSD date date))).
Proof.
  intros Hmiss. rewrite (fetchDateSpecificData_miss env date w Hmiss). cbv zeta.
  split; [|split; [|split]].
  - destruct (Server.historical_price_full env (Server.clock w) Server.GCUSD date date)
      as [[[|p l]|[[|p l]|]|]|]; reflexivity.
  - intros p l [H|H]; rewrite H; reflexivity.
  - intros [H|[H|[H|H]]]; rewrite H; reflexivity.
  - intros H. rewrite H. reflexivity.
Qed.

Lemma fetchDateSpecificData_single_source_witness :
  Server.requests
    (snd (Server.fetchDateSpecificData Examples.env_spot "2024-05-31" Examples.world0))
  = [Server.HistoricalRequest Server.GCUSD "2024-05-31" "2024-05-31"]
  /\ fst (Server.fetchDateSpecificData Examples.env_spot "2024-05-31" Examples.world0)
     = Server.Returned (PointPayload Examples.day_record)
  /\ fst (Server.fetchDateSpecificData Examples.env_spot_down "2024-05-31" Examples.world0)
     = Server.Thrown
         (Server.AxiosError
            (Server.HistoricalRequest Server.GCUSD "2024-05-31" "2024-05-31")).
Proof.
  assert (Hmiss : fst (MemoryCache.get (Server.clock Examples.world0)
                         ("date_" ++ "2024-05-31") (Server.cache Examples.world0)) = None)
    by reflexivity.
  destruct (fetchDateSpecificData_single_source Examples.env_spot "2024-05-31"
              Examples.world0 Hmiss) as [Hreq [Hfirst _]].
  destruct (fetchDateSpecificData_single_source Examples.env_spot_down "2024-05-31"
              Examples.world0 Hmiss) as [_ [_ [_ Hdown]]].
  split; [exact Hreq|]. split.
  - apply (Hfirst Examples.day_record []). right. reflexivity.
  - apply Hdown. reflexivity.
Defined.

(** X13. A fetch that throws caches nothing: the store is what its
    [cache.get] left, and it has no entry under the key of the fetch. *)
Theorem failed_fetch_caches_nothing (env : Server.Environment) (w : Server.World) :
  (forall e,
     fst (Server.fetchCurrentGoldPrice env w) = Server.Thrown e ->
     Server.cache (snd (Server.fetchCurrentGoldPrice env w))
     = snd (MemoryCache.get (Server.clock w) "current_gold_price" (Server.cache w))
     /\ JSMap.get "current_gold_price"
          (Server.cache (snd (Server.fetchCurrentGoldPrice env w))) = None)
  /\ (forall timeframe e,
        fst (Server.fetchHistoricalData env timeframe w) = Server.Thrown e ->
        Server.cache (snd (Server.fetchHistoricalData env timeframe w))
        = snd (MemoryCache.get (Server.clock w) ("historical_" ++ timeframe)
                 (Server.cache w))
        /\ JSMap.get ("historical_" ++ timeframe)
             (Server.cache (snd (Server.fetchHistoricalData env timeframe w))) = None)
  /\ (forall date e,
        fst (Server.fetchDateSpecificData env date w) = Server.Thrown e ->
        Server.cache (snd (Server.fetchDateSpecificData env date w))
        = snd (MemoryCache.get (Server.clock w) ("date_" ++ date) (Server.cache w))
        /\ JSMap.get ("date_" ++ date)
             (Server.cache (snd (Server.fetchDateSpecificData env date w))) = None).
Proof.
  assert (G : forall key ttl r e,
             store_after_fetch key ttl w r -> fst r = Server.Thrown e ->
             Server.cache (snd r)
             = snd (MemoryCache.get (Server.clock w) key (Server.cache w))
             /\ JSMap.get key (Server.cache (snd r)) = None).
  { unfold store_after_fetch. cbv zeta. intros key ttl r e H Hr.
    rewrite Hr in H. destruct H as [Hc Hmiss]. split; [exact Hc|].
    rewrite Hc. now apply MemoryCache_get_miss_absent. }
  split; [|split].
  - intros e. apply G with (ttl := CACHE_CONFIG.CURRENT_PRICE_TTL).
    apply fetchCurrentGoldPrice_store.
  - intros timeframe e. apply G with (ttl := CACHE_CONFIG.HISTORICAL_DATA_TTL).
    apply fetchHistoricalData_store.
  - intros date e. apply G with (ttl := CACHE_CONFIG.DATE_SPECIFIC_TTL).
    apply fetchDateSpecificData_store.
Qed.

(** X14. What the fetch helpers can throw. [fetchCurrentGoldPrice] throws
    ['No gold data available from API'], or a [TypeError] and then one of
    its two requests was fulfilled with [null] or [undefined]; it never
    throws the rejection of a request. [fetchHistoricalData] throws
    ['No historical data available from API'] or the rejection of the GLD
    request, never that of the GCUSD request. [fetchDateSpecificData]
    throws ['No data found for date <date>'] or the rejection of its
    GCUSD request. *)
Theorem fetch_error_taxonomy (env : Server.Environment) (w : Server.World) :
  (forall e,
     fst (Server.fetchCurrentGoldPrice env w) = Server.Thrown e ->
     e = Server.JsError "No gold data available from API"
     \/ (e = Server.TypeError
         /\ (Server.quote env (Server.clock w) Server.GCUSD
             = Server.Fulfilled Server.QuoteNullish
             \/ Server.quote env (Server.clock w) Server.GLD
                = Server.Fulfilled Server.QuoteNullish)))
  /\ (forall timeframe e,
        fst (Server.fetchHistoricalData env timeframe w) = Server.Thrown e ->
        e = Server.JsError "No historical data available from API"
        \/ e = Server.AxiosError
                 (Server.HistoricalRequest Server.GLD
                    (fst (Server.getDateRange env (Server.clock w) timeframe))
                    (snd (Server.getDateRange env (Server.clock w) timeframe))))
  /\ (forall date e,
        fst (Server.fetchDateSpecificData env date w) = Server.Thrown e ->
        e = Server.JsError ("No data found for date " ++ date)
        \/ e = Server.AxiosError (Server.HistoricalRequest Server.GCUSD date date)).
Proof.
  split; [|split].
  - intros e.
    destruct (fst (MemoryCache.get (Server.clock w) "current_gold_price"
                     (Server.cache w))) as [d|] eqn:G.
    + rewrite (fetchCurrentGoldPrice_value env w d G). discriminate.
    + rewrite (fetchCurrentGoldPrice_miss env w G). cbv zeta.
      unfold selected_quote.
      destruct (Server.quote env (Server.clock w) Server.GCUSD) as [[[|q qs]| |]|];
        destruct (Server.quote env (Server.clock w) Server.GLD) as [[[|q' qs']| |]|];
        cbn [fst]; intros [= <-]; auto.
  - intros timeframe e.
    destruct (fst (MemoryCache.get (Server.clock w) ("historical_" ++ timeframe)
                     (Server.cache w))) as [d|] eqn:G.
    + rewrite (fetchHistoricalData_value env timeframe w d G). discriminate.
    + destruct (Server.getDateRange env (Server.clock w) timeframe)
        as [start end_] eqn:R.
      rewrite (fetchHistoricalData_miss env timeframe w start end_ G R). cbv zeta.
      unfold conclude_historical. cbn [fst snd].
      destruct (Server.historical_price_full env (Server.clock w) Server.GCUSD start end_)
        as [body|].
      * destruct (Server.assign_historical body []); cbn [fst];
          intros [= <-]; now left.
      * destruct (Server.historical_price_full env _ Server.GLD start end_) as [body|].
        -- destruct (Server.assign_historical body []); cbn [fst];
             intros [= <-]; now left.
        -- cbn [fst]. intros [= <-]. now right.
  - intros date e.
    destruct (fst (MemoryCache.get (Server.clock w) ("date_" ++ date)
                     (Server.cache w))) as [d|] eqn:G.
    + rewrite (fetchDateSpecificData_value env date w d G). discriminate.
    + rewrite (fetchDateSpecificData_miss env date w G). cbv zeta.
      destruct (Server.historical_price_full env (Server.clock w) Server.GCUSD date date)
        as [[[|p l]|[[|p l]|]|]|]; cbn [fst]; intros [= <-]; auto.
Qed.

(** X15. The request log only grows, and by a fixed pattern per call, with
    no retry: [fetchCurrentGoldPrice] adds nothing or the GLD and GCUSD
    quote requests; [fetchHistoricalData] adds nothing, the GCUSD
    request, or the GCUSD request followed by the GLD request for the
    same window; [fetchDateSpecificData] adds nothing or its one GCUSD
    request. *)
Theorem fetch_request_budget (env : Server.Environment) (w : Server.World) :
  (Server.requests (snd (Server.fetchCurrentGoldPrice env w)) = Server.requests w
   \/ Server.requests (snd (Server.fetchCurrentGoldPrice env w))
      = (Server.requests w
         ++ [Server.QuoteRequest Server.GLD; Server.QuoteRequest Server.GCUSD])%list)
  /\ (forall timeframe start end_,
        Server.getDateRange env (Server.clock w) timeframe = (start, end_) ->
        Server.requests (snd (Server.fetchHistoricalData env timeframe w))
        = Server.requests w
        \/ Server.requests (snd (Server.fetchHistoricalData env timeframe w))
           = (Server.requests w
              ++ [Server.HistoricalRequest Server.GCUSD start end_])%list
        \/ Server.requests (snd (Server.fetchHistoricalData env timeframe w))
           = (Server.requests w
              ++ [Server.HistoricalRequest Server.GCUSD start end_;
                  Server.HistoricalRequest Server.GLD start end_])%list)
  /\ (forall date,
        Server.requests (snd (Server.fetchDateSpecificData env date w))
        = Server.requests w
        \/ Server.requests (snd (Server.fetchDateSpecificData env date w))
           = (Server.requests w
              ++ [Server.HistoricalRequest Server.GCUSD date date])%list).
Proof.
  split; [|split].
  - destruct (fst (MemoryCache.get (Server.clock w) "current_gold_price"
                     (Server.cache w))) as [d|] eqn:G.
    + rewrite (fetchCurrentGoldPrice_value env w d G). now left.
    + rewrite (fetchCurrentGoldPrice_miss env w G). cbv zeta. right.
      destruct (selected_quote _ _) as [[q|]|e]; reflexivity.
  - intros timeframe start end_ R.
    destruct (fst (MemoryCache.get (Server.clock w) ("historical_" ++ timeframe)
                     (Server.cache w))) as [d|] eqn:G.
    + rewrite (fetchHistoricalData_value env timeframe w d G). now left.
    + rewrite (fetchHistoricalData_miss env timeframe w start end_ G R). cbv zeta.
      unfold conclude_historical. right.
      destruct (Server.historical_price_full env (Server.clock w) Server.GCUSD start end_)
        as [body|].
      * left. destruct (Server.assign_historical body []); reflexivity.
      * right.
        destruct (Server.historical_price_full env _ Server.GLD start end_) as [body|];
          [destruct (Server.assign_historical body [])|];
          cbn [snd after_set after_requests after_miss Server.requests];
          rewrite <- app_assoc; reflexivity.
  - intros date.
    destruct (fst (MemoryCache.get (Server.clock w) ("date_" ++ date)
                     (Server.cache w))) as [d|] eqn:G.
    + rewrite (fetchDateSpecificData_value env date w d G). now left.
    + rewrite (fetchDateSpecificData_miss env date w G). cbv zeta. right.
      destruct (Server.historical_price_full env (Server.clock w) Server.GCUSD date date)
        as [[[|p l]|[[|p l]|]|]|]; reflexivity.
Qed.

Lemma fetch_request_budget_witness :
  Server.requests
    (snd (Server.fetchHistoricalData Examples.env_spot_down "1M" Examples.world0))
  = Server.requests Examples.world0
  \/ Server.requests
       (snd (Server.fetchHistoricalData Examples.env_spot_down "1M" Examples.world0))
     = (Server.requests Examples.world0
        ++ [Server.HistoricalRequest Server.GCUSD "2024-05-01" "2024-05-31"])%list
  \/ Server.requests
       (snd (Server.fetchHistoricalData Examples.env_spot_down "1M" Examples.world0))
     = (Server.requests Examples.world0
        ++ [Server.HistoricalRequest Server.GCUSD "2024-05-01" "2024-05-31";
            Server.HistoricalRequest Server.GLD "2024-05-01" "2024-05-31"])%list.
Proof.
  destruct (fetch_request_budget Examples.env_spot_down Examples.world0)
    as [_ [Hhist _]].
  apply (Hhist "1M" "2024-05-01" "2024-05-31"). reflexivity.
Defined.

(** X16. A fresh result is stored under the key of the fetch, stamped
    with the time the fetch ends, with the TTL of its kind: 300000 ms
    for the current quote, 1800000 ms for a historical range, 86400000 ms
    for one date. *)
Theorem fresh_result_is_cached_with_kind_ttl (env : Server.Environment)
  (w w1 : Server.World) (p : Payload) :
  (fst (MemoryCache.get (Server.clock w) "current_gold_price" (Server.cache w)) = None ->
   Server.fetchCurrentGoldPrice env w = (Server.Returned p, w1) ->
   JSMap.get "current_gold_price" (Server.cache w1)
   = Some (mkCacheEntry p (Server.clock w1) 300000 "current_gold_price"))
  /\ (forall timeframe,
        fst (MemoryCache.get (Server.clock w) ("historical_" ++ timeframe)
               (Server.cache w)) = None ->
        Server.fetchHistoricalData env timeframe w = (Server.Returned p, w1) ->
        JSMap.get ("historical_" ++ timeframe) (Server.cache w1)
        = Some (mkCacheEntry p (Server.clock w1) 1800000 ("historical_" ++ timeframe)))
  /\ (forall date,
        fst (MemoryCache.get (Server.clock w) ("date_" ++ date) (Server.cache w)) = None ->
        Server.fetchDateSpecificData env date w = (Server.Returned p, w1) ->
        JSMap.get ("date_" ++ date) (Server.cache w1)
        = Some (mkCacheEntry p (Server.clock w1) 86400000 ("date_" ++ date))).
Proof.
  split; [|split].
  - intros Hmiss Hfetch.
    exact (proj1 (fetchCurrentGoldPrice_stores env w p w1 Hmiss Hfetch)).
  - intros timeframe Hmiss Hfetch.
    exact (proj1 (fetchHistoricalData_stores env timeframe w p w1 Hmiss Hfetch)).
  - intros date Hmiss Hfetch.
    exact (proj1 (fetchDateSpecificData_stores env date w p w1 Hmiss Hfetch)).
Qed.

Lemma fresh_result_is_cached_with_kind_ttl_witness :
  JSMap.get "current_gold_price"
    (Server.cache (snd (Server.fetchCurrentGoldPrice Examples.env_spot Examples.world0)))
  = Some (mkCacheEntry (QuotePayload Examples.spot_quote) 40 300000
            "current_gold_price").
Proof.
  destruct (fresh_result_is_cached_with_kind_ttl Examples.env_spot Examples.world0
              (snd (Server.fetchCurrentGoldPrice Examples.env_spot Examples.world0))
              (QuotePayload Examples.spot_quote)) as [Hcurrent _].
  apply Hcurrent; reflexivity.
Defined.

(** X17. Once more than the TTL of its kind has passed since a fresh
    result was stored, the same fetch misses the cache and goes upstream
    again: the current-quote fetch issues its two requests, the
    date-specific fetch its one request, and the historical fetch at
    least one. *)
Theorem refetch_after_ttl_goes_upstream (env : Server.Environment)
  (w w1 : Server.World) (p : Payload) (d : Z) :
  (fst (MemoryCache.get (Server.clock w) "current_gold_price" (Server.cache w)) = None ->
   Server.fetchCurrentGoldPrice env w = (Server.Returned p, w1) ->
   d > CACHE_CONFIG.CURRENT_PRICE_TTL ->
   Server.requests (snd (Server.fetchCurrentGoldPrice env (Server.advance d w1)))
   = (Server.requests w1
      ++ [Server.QuoteRequest Server.GLD; Server.QuoteRequest Server.GCUSD])%list)
  /\ (forall timeframe,
        fst (MemoryCache.get (Server.clock w) ("historical_" ++ timeframe)
               (Server.cache w)) = None ->
        Server.fetchHistoricalData env timeframe w = (Server.Returned p, w1) ->
        d > CACHE_CONFIG.HISTORICAL_DATA_TTL ->
        Server.requests
          (snd (Server.fetchHistoricalData env timeframe (Server.advance d w1)))
        <> Server.requests w1)
  /\ (forall date,
        fst (MemoryCache.get (Server.clock w) ("date_" ++ date) (Server.cache w)) = None ->
        Server.fetchDateSpecificData env date w = (Server.Returned p, w1) ->
        d > CACHE_CONFIG.DATE_SPECIFIC_TTL ->
        Server.requests (snd (Server.fetchDateSpecificData env date (Server.advance d w1)))
        = (Server.requests w1
           ++ [Server.HistoricalRequest Server.GCUSD date date])%list).
Proof.
  assert (Hexpired : forall key t,
            JSMap.get key (Server.cache w1)
            = Some (mkCacheEntry p (Server.clock w1) t key) ->
            d > t ->
            fst (MemoryCache.get (Server.clock (Server.advance d w1)) key
                   (Server.cache (Server.advance d w1))) = None).
  { intros key t Hget Hd. cbn [Server.advance Server.clock Server.cache].
    rewrite MemoryCache_get_value, Hget.
    assert (X : MemoryCache.expired (Server.clock w1 + d)
                  (mkCacheEntry p (Server.clock w1) t key) = true).
    { apply expired_true. cbn [timestamp ttl]. lia. }
    now rewrite X. }
  split; [|split].
  - intros Hmiss Hfetch Hd.
    destruct (fetchCurrentGoldPrice_stores env w p w1 Hmiss Hfetch) as [Hget _].
    rewrite (fetchCurrentGoldPrice_miss env _ (Hexpired _ _ Hget Hd)). cbv zeta.
    destruct (selected_quote _ _) as [[q|]|e]; reflexivity.
  - intros timeframe Hmiss Hfetch Hd.
    destruct (fetchHistoricalData_stores env timeframe w p w1 Hmiss Hfetch) as [Hget _].
    pose proof (Hexpired _ _ Hget Hd) as Hmiss'.
    destruct (Server.getDateRange env (Server.clock (Server.advance d w1)) timeframe)
      as [start end_] eqn:R.
    rewrite (fetchHistoricalData_miss env timeframe _ start end_ Hmiss' R). cbv zeta.
    assert (Grow : forall (l : list Server.Request) x l', (l ++ x :: l')%list <> l).
    { intros l x l' E. apply (f_equal (@List.length _)) in E.
      rewrite length_app in E. simpl in E. lia. }
    unfold conclude_historical.
    destruct (Server.historical_price_full env _ Server.GCUSD start end_) as [body|].
    + destruct (Server.assign_historical body []); apply Grow.
    + destruct (Server.historical_price_full env _ Server.GLD start end_) as [body|];
        [destruct (Server.assign_historical body [])|];
        cbn [snd after_set after_requests after_miss Server.requests Server.advance];
        rewrite <- app_assoc; apply Grow.
  - intros date Hmiss Hfetch Hd.
    destruct (fetchDateSpecificData_stores env date w p w1 Hmiss Hfetch) as [Hget _].
    rewrite (fetchDateSpecificData_miss env date _ (Hexpired _ _ Hget Hd)). cbv zeta.
    destruct (Server.historical_price_full env _ Server.GCUSD date date)
      as [[[|q l]|[[|q l]|]|]|]; reflexivity.
Qed.

Lemma refetch_after_ttl_goes_upstream_witness :
  Server.requests
    (snd (Server.fetchCurrentGoldPrice Examples.env_spot
            (Server.advance 300001
               (snd (Server.fetchCurrentGoldPrice Examples.env_spot Examples.world0)))))
  = [Server.QuoteRequest Server.GLD; Server.QuoteRequest Server.GCUSD;
     Server.QuoteRequest Server.GLD; Server.QuoteRequest Server.GCUSD].
Proof.
  destruct (refetch_after_ttl_goes_upstream Examples.env_spot Examples.world0
              (snd (Server.fetchCurrentGoldPrice Examples.env_spot Examples.world0))
              (QuotePayload Examples.spot_quote) 300001) as [Hcurrent _].
  apply Hcurrent.
  - reflexivity.
  - reflexivity.
  - unfold CACHE_CONFIG.CURRENT_PRICE_TTL. lia.
Defined.

(** X18. While the store is below capacity, a fetch changes the cache
    under its own key only: every other key holds after the fetch what it
    held before. *)
Theorem fetch_touches_only_its_key (env : Server.Environment) (w : Server.World)
  (k' : string) :
  (JSMap.size (Server.cache w) < CACHE_CONFIG.MAX_CACHE_SIZE)%nat ->
  (k' <> "current_gold_price" ->
   JSMap.get k' (Server.cache (snd (Server.fetchCurrentGoldPrice env w)))
   = JSMap.get k' (Server.cache w))
  /\ (forall timeframe,
        k' <> "historical_" ++ timeframe ->
        JSMap.get k' (Server.cache (snd (Server.fetchHistoricalData env timeframe w)))
        = JSMap.get k' (Server.cache w))
  /\ (forall date,
        k' <> "date_" ++ date ->
        JSMap.get k' (Server.cache (snd (Server.fetchDateSpecificData env date w)))
        = JSMap.get k' (Server.cache w)).
Proof.
  intros Hroom. split; [|split].
  - intros Hne.
    exact (store_after_fetch_frame _ _ w _ k'
             (fetchCurrentGoldPrice_store env w) Hroom Hne).
  - intros timeframe Hne.
    exact (store_after_fetch_frame _ _ w _ k'
             (fetchHistoricalData_store env timeframe w) Hroom Hne).
  - intros date Hne.
    exact (store_after_fetch_frame _ _ w _ k'
             (fetchDateSpecificData_store env date w) Hroom Hne).
Qed.

Lemma fetch_touches_only_its_key_witness :
  JSMap.get "current_gold_price"
    (Server.cache
       (snd (Server.fetchDateSpecificData Examples.env_spot "2024-05-31"
               (snd (Server.fetchCurrentGoldPrice Examples.env_spot Examples.world0)))))
  = JSMap.get "current_gold_price"
      (Server.cache (snd (Server.fetchCurrentGoldPrice Examples.env_spot Examples.world0))).
Proof.
  destruct (fetch_touches_only_its_key Examples.env_spot
              (snd (Server.fetchCurrentGoldPrice Examples.env_spot Examples.world0))
              "current_gold_price") as [_ [_ Hdate]].
  - vm_compute. repeat constructor.
  - apply (Hdate "2024-05-31"). discriminate.
Defined.

(** X19. The keys of the three kinds never collide: while the store is
    below capacity, a fetch of one kind leaves the cached values of the
    other two kinds as they are, for every timeframe and every date. *)
Theorem fetch_kinds_do_not_collide (env : Server.Environment) (w : Server.World)
  (timeframe date : string) :
  (JSMap.size (Server.cache w) < CACHE_CONFIG.MAX_CACHE_SIZE)%nat ->
  (JSMap.get ("historical_" ++ timeframe)
     (Server.cache (snd (Server.fetchCurrentGoldPrice env w)))
   = JSMap.get ("historical_" ++ timeframe) (Server.cache w)
   /\ JSMap.get ("date_" ++ date)
        (Server.cache (snd (Server.fetchCurrentGoldPrice env w)))
      = JSMap.get ("date_" ++ date) (Server.cache w))
  /\ (forall timeframe',
        JSMap.get "current_gold_price"
          (Server.cache (snd (Server.fetchHistoricalData env timeframe' w)))
        = JSMap.get "current_gold_price" (Server.cache w)
        /\ JSMap.get ("date_" ++ date)
             (Server.cache (snd (Server.fetchHistoricalData env timeframe' w)))
           = JSMap.get ("date_" ++ date) (Server.cache w))
  /\ (forall date',
        JSMap.get "current_gold_price"
          (Server.cache (snd (Server.fetchDateSpecificData env date' w)))
        = JSMap.get "current_gold_price" (Server.cache w)
        /\ JSMap.get ("historical_" ++ timeframe)
             (Server.cache (snd (Server.fetchDateSpecificData env date' w)))
           = JSMap.get ("historical_" ++ timeframe) (Server.cache w)).
Proof.
  intros Hroom.
  pose proof (fun k' => store_after_fetch_frame _ _ w _ k'
                          (fetchCurrentGoldPrice_store env w) Hroom) as Hc.
  pose proof (fun tf k' => store_after_fetch_frame _ _ w _ k'
                             (fetchHistoricalData_store env tf w) Hroom) as Hh.
  pose proof (fun dt k' => store_after_fetch_frame _ _ w _ k'
                             (fetchDateSpecificData_store env dt w) Hroom) as Hd.
  split; [|split].
  - split; apply Hc; discriminate.
  - intros timeframe'. split; apply Hh; discriminate.
  - intros date'. split; apply Hd; discriminate.
Qed.

Lemma fetch_kinds_do_not_collide_witness :
  JSMap.get ("historical_" ++ "1M")
    (Server.cache (snd (Server.fetchCurrentGoldPrice Examples.env_spot Examples.world0)))
  = JSMap.get ("historical_" ++ "1M") (Server.cache Examples.world0)
  /\ JSMap.get ("date_" ++ "2024-05-31")
       (Server.cache (snd (Server.fetchCurrentGoldPrice Examples.env_spot Examples.world0)))
     = JSMap.get ("date_" ++ "2024-05-31") (Server.cache Examples.world0).
Proof.
  apply (fetch_kinds_do_not_collide Examples.env_spot Examples.world0 "1M" "2024-05-31").
  vm_compute. repeat constructor.
Defined.

(* ================================================================== *)
(** * The routes                                                       *)
(* ================================================================== *)

(** X20. [GET /api/gold/current] answers 500 with the error exactly when
    [fetchCurrentGoldPrice] throws, and otherwise 200 with the fetched
    quote and the answer of [cache.has] at the handler's next clock
    reading; either way it issues no upstream request beyond those of
    the fetch. On a cache hit the request log is as it was; the answer
    says [cached: true] and the cache is unchanged when the entry is
    still unexpired at that next reading, and says [cached: false], with
    the entry deleted, when the entry has expired in between. *)
Theorem current_handler_outcomes (env : Server.Environment) (unit : WeightUnit)
  (w : Server.World) :
  (forall e,
     fst (Server.fetchCurrentGoldPrice env w) = Server.Thrown e ->
     Server.get_api_gold_current env unit w
     = (Server.Json500 "Failed to fetch current gold price" e,
        snd (Server.fetchCurrentGoldPrice env w)))
  /\ (forall p,
        fst (Server.fetchCurrentGoldPrice env w) = Server.Returned p ->
        fst (Server.get_api_gold_current env unit w)
        = Server.Json200
            (Server.mkCurrentBody p (getUnitLabel unit) unit
               (fst (MemoryCache.has
                       (Server.clock (snd (Server.fetchCurrentGoldPrice env w))
                        + Server.pause env
                            (Server.clock (snd (Server.fetchCurrentGoldPrice env w))))
                       "current_gold_price"
                       (Server.cache (snd (Server.fetchCurrentGoldPrice env w)))))))
  /\ Server.requests (snd (Server.get_api_gold_current env unit w))
     = Server.requests (snd (Server.fetchCurrentGoldPrice env w))
  /\ (forall e,
        JSMap.get "current_gold_price" (Server.cache w) = Some e ->
        Server.clock w - timestamp e <= ttl e ->
        Server.requests (snd (Server.get_api_gold_current env unit w))
        = Server.requests w
        /\ (Server.clock w + Server.pause env (Server.clock w) - timestamp e <= ttl e ->
            Server.get_api_gold_current env unit w
            = (Server.Json200
                 (Server.mkCurrentBody (data e) (getUnitLabel unit) unit true),
               Server.advance (Server.pause env (Server.clock w)) w))
        /\ (Server.clock w + Server.pause env (Server.clock w) - timestamp e > ttl e ->
            fst (Server.get_api_gold_current env unit w)
            = Server.Json200
                (Server.mkCurrentBody (data e) (getUnitLabel unit) unit false)
            /\ JSMap.get "current_gold_price"
                 (Server.cache (snd (Server.get_api_gold_current env unit w)))
               = None)).
Proof.
  unfold Server.get_api_gold_current.
  split; [|split; [|split]].
  - intros e He. unfold Server.bind at 1.
    destruct (Server.fetchCurrentGoldPrice env w) as [[p|e'] w1]; cbn [fst] in He;
      [discriminate|]. now injection He as ->.
  - intros p Hp. unfold Server.bind at 1.
    destruct (Server.fetchCurrentGoldPrice env w) as [[p'|e'] w1]; cbn [fst] in Hp;
      [|discriminate]. injection Hp as ->.
    unfold Server.bind, Server.tick, Server.on_cache, Server.ret.
    cbn [snd Server.clock Server.cache].
    now destruct (MemoryCache.has _ "current_gold_price" (Server.cache w1)).
  - unfold Server.bind at 1.
    destruct (Server.fetchCurrentGoldPrice env w) as [[p|e'] w1]; [|reflexivity].
    unfold Server.bind, Server.tick, Server.on_cache, Server.ret.
    cbn [snd Server.clock Server.cache Server.requests].
    now destruct (MemoryCache.has _ "current_gold_price" (Server.cache w1)).
  - intros e Hget Hage.
    unfold Server.bind, Server.tick, Server.on_cache, Server.ret.
    rewrite (fetchCurrentGoldPrice_hit env w e Hget Hage).
    cbv beta iota. cbn [Server.clock Server.cache Server.requests].
    split; [|split].
    + now destruct (MemoryCache.has _ "current_gold_price" (Server.cache w)).
    + intros Hlive.
      rewrite (MemoryCache_has_fresh _ _ _ _ Hget) by now apply expired_false.
      reflexivity.
    + intros Hdead.
      rewrite (MemoryCache_has_expired _ _ _ _ Hget) by now apply expired_true.
      cbn [fst snd Server.cache]. split; [reflexivity|].
      apply JSMap_get_delete_same.
Qed.

Lemma current_handler_outcomes_witness :
  Server.get_api_gold_current Examples.env_no_data kg Examples.world0
  = (Server.Json500 "Failed to fetch current gold price"
       (Server.JsError "No gold data available from API"),
     snd (Server.fetchCurrentGoldPrice Examples.env_no_data Examples.world0))
  /\ Server.get_api_gold_current Examples.env_spot oz
       (Server.advance 300000
          (snd (Server.fetchCurrentGoldPrice Examples.env_spot Examples.world0)))
     = (Server.Json200
          (Server.mkCurrentBody (QuotePayload Examples.spot_quote)
             (getUnitLabel oz) oz true),
        Server.advance 0
          (Server.advance 300000
             (snd (Server.fetchCurrentGoldPrice Examples.env_spot Examples.world0))))
  /\ fst (Server.get_api_gold_current Examples.env_spot_ticking oz
            (Server.advance 300000
               (snd (Server.fetchCurrentGoldPrice Examples.env_spot Examples.world0))))
     = Server.Json200
         (Server.mkCurrentBody (QuotePayload Examples.spot_quote)
            (getUnitLabel oz) oz false).
Proof.
  destruct (current_handler_outcomes Examples.env_no_data kg Examples.world0)
    as [Hthrown _].
  destruct (current_handler_outcomes Examples.env_spot oz
              (Server.advance 300000
                 (snd (Server.fetchCurrentGoldPrice Examples.env_spot Examples.world0))))
    as [_ [_ [_ Hhit]]].
  destruct (current_handler_outcomes Examples.env_spot_ticking oz
              (Server.advance 300000
                 (snd (Server.fetchCurrentGoldPrice Examples.env_spot Examples.world0))))
    as [_ [_ [_ Hlate]]].
  split; [|split].
  - apply Hthrown. reflexivity.
  - apply (Hhit (mkCacheEntry (QuotePayload Examples.spot_quote) 40 300000
                   "current_gold_price")).
    + reflexivity.
    + vm_compute. discriminate.
    + vm_compute. discriminate.
  - apply (Hlate (mkCacheEntry (QuotePayload Examples.spot_quote) 40 300000
                    "current_gold_price")).
    + reflexivity.
    + vm_compute. discriminate.
    + vm_compute. reflexivity.
Defined.

(** X21. The date route accepts exactly the strings of ten characters
    that have ['-'] at positions 4 and 7 and an ASCII digit everywhere
    else; it does not look at the calendar. *)
Theorem dateRegex_test_shape (date : string) :
  Routes.dateRegex_test date = true
  <-> String.length date = 10%nat
      /\ (forall i c,
            String.get i date = Some c ->
            if ((i =? 4) || (i =? 7))%nat then c = "-"%char
            else Routes.is_digit c = true).
Proof.
  unfold Routes.dateRegex_test.
  destruct date as [|c0 [|c1 [|c2 [|c3 [|c4 [|c5 [|c6 [|c7 [|c8 [|c9 [|c10 rest]]]]]]]]]]];
    cbn [list_ascii_of_string String.length];
    try (split; [discriminate | intros [H _]; discriminate H]).
  split.
  - intros H. do 9 (apply andb_true_iff in H; destruct H as [H ?]).
    split; [reflexivity|].
    intros i c.
    do 10 (destruct i as [|i];
           [cbn [String.get Nat.eqb orb]; intros [= <-];
            first [assumption | now apply Ascii.eqb_eq]|]).
    cbn [String.get]. discriminate.
  - intros [_ H].
    pose proof (H 0%nat c0 eq_refl) as H0. pose proof (H 1%nat c1 eq_refl) as H1.
    pose proof (H 2%nat c2 eq_refl) as H2. pose proof (H 3%nat c3 eq_refl) as H3.
    pose proof (H 4%nat c4 eq_refl) as H4. pose proof (H 5%nat c5 eq_refl) as H5.
    pose proof (H 6%nat c6 eq_refl) as H6. pose proof (H 7%nat c7 eq_refl) as H7.
    pose proof (H 8%nat c8 eq_refl) as H8. pose proof (H 9%nat c9 eq_refl) as H9.
    cbn [Nat.eqb orb] in H0, H1, H2, H3, H4, H5, H6, H7, H8, H9.
    apply Ascii.eqb_eq in H4, H7.
    now rewrite H0, H1, H2, H3, H4, H5, H6, H7, H8, H9.
Qed.

(** X22. [GET /api/gold/date/:date] with a date the pattern rejects
    answers 400 and does nothing else: no upstream request, no change to
    the cache. With a date the pattern accepts it issues the requests of
    [fetchDateSpecificData] and no other, and answers 500 with the error
    when that fetch throws and 200 with the fetched record otherwise,
    stamped with the handler's next clock reading and with the answer of
    [cache.has] at the reading after that. *)
Theorem date_handler_outcomes (env : Server.Environment) (unit : WeightUnit)
  (date : string) (w : Server.World) :
  (Routes.dateRegex_test date = false ->
   Routes.get_api_gold_date env unit date w
   = (Routes.DateJson400 "Invalid date format" "Date must be in YYYY-MM-DD format", w))
  /\ (Routes.dateRegex_test date = true ->
      Server.requests (snd (Routes.get_api_gold_date env unit date w))
      = Server.requests (snd (Server.fetchDateSpecificData env date w))
      /\ (forall e,
            fst (Server.fetchDateSpecificData env date w) = Server.Thrown e ->
            Routes.get_api_gold_date env unit date w
            = (Routes.DateJson500 "Failed to fetch gold price for specified date" e,
               snd (Server.fetchDateSpecificData env date w)))
      /\ (forall p,
            fst (Server.fetchDateSpecificData env date w) = Server.Returned p ->
            fst (Routes.get_api_gold_date env unit date w)
            = Routes.DateJson200
                (Routes.mkDateBody p date unit (getUnitLabel unit)
                   (next_reading env
                      (Server.clock (snd (Server.fetchDateSpecificData env date w))))
                   (fst (MemoryCache.has
                           (next_reading env
                              (next_reading env
                                 (Server.clock
                                    (snd (Server.fetchDateSpecificData env date w)))))
                           ("date_" ++ date)
                           (Server.cache
                              (snd (Server.fetchDateSpecificData env date w)))))))).
Proof.
  unfold Routes.get_api_gold_date. split.
  - intros H. now rewrite H.
  - intros H. rewrite H. cbn [negb].
    unfold Server.bind, Server.tick, Server.Date_now, Server.on_cache, Server.ret.
    destruct (Server.fetchDateSpecificData env date w) as [[p|e] w1]; cbn [fst snd].
    + cbv beta iota. unfold next_reading.
      cbn [Server.advance Server.clock Server.cache Server.requests].
      destruct (MemoryCache.has _ ("date_" ++ date) (Server.cache w1)) as [c m].
      cbn [fst snd Server.requests]. split; [reflexivity|]. split.
      * intros e He. discriminate.
      * intros p' [= <-]. reflexivity.
    + split; [reflexivity|]. split.
      * intros e' [= <-]. reflexivity.
      * intros p He. discriminate.
Qed.

Lemma date_handler_outcomes_witness :
  Routes.get_api_gold_date Examples.env_spot oz "2024-5-31" Examples.world0
  = (Routes.DateJson400 "Invalid date format" "Date must be in YYYY-MM-DD format",
     Examples.world0)
  /\ Server.requests
       (snd (Routes.get_api_gold_date Examples.env_spot oz "2024-05-31" Examples.world0))
     = Server.requests
         (snd (Server.fetchDateSpecificData Examples.env_spot "2024-05-31"
                 Examples.world0)).
Proof.
  destruct (date_handler_outcomes Examples.env_spot oz "2024-5-31" Examples.world0)
    as [Hbad _].
  destruct (date_handler_outcomes Examples.env_spot oz "2024-05-31" Examples.world0)
    as [_ Hgood].
  split.
  - apply Hbad. reflexivity.
  - apply Hgood. reflexivity.
Defined.

(** X23. [POST /api/cache/clear] empties the cache and touches nothing
    else; whatever was cached before, the next fetch of any kind misses
    the cache and goes upstream. *)
Theorem clear_forces_refetch (env : Server.Environment) (w : Server.World) :
  snd (Routes.post_api_cache_clear w)
  = Server.mkWorld [] (Server.clock w) (Server.requests w)
  /\ Server.requests
       (snd (Server.fetchCurrentGoldPrice env (snd (Routes.post_api_cache_clear w))))
     = (Server.requests w
        ++ [Server.QuoteRequest Server.GLD; Server.QuoteRequest Server.GCUSD])%list
  /\ (forall timeframe,
        Server.requests
          (snd (Server.fetchHistoricalData env timeframe
                  (snd (Routes.post_api_cache_clear w))))
        <> Server.requests w)
  /\ (forall date,
        Server.requests
          (snd (Server.fetchDateSpecificData env date
                  (snd (Routes.post_api_cache_clear w))))
        = (Server.requests w
           ++ [Server.HistoricalRequest Server.GCUSD date date])%list).
Proof.
  assert (E : snd (Routes.post_api_cache_clear w)
              = Server.mkWorld [] (Server.clock w) (Server.requests w))
    by reflexivity.
  rewrite E. clear E.
  set (w0 := Server.mkWorld [] (Server.clock w) (Server.requests w)).
  assert (Hmiss : forall key,
             fst (MemoryCache.get (Server.clock w0) key (Server.cache w0)) = None)
    by reflexivity.
  split; [reflexivity|]. split; [|split].
  - rewrite (fetchCurrentGoldPrice_miss env w0 (Hmiss _)). cbv zeta.
    destruct (selected_quote _ _) as [[q|]|e]; reflexivity.
  - intros timeframe.
    destruct (Server.getDateRange env (Server.clock w0) timeframe)
      as [start end_] eqn:R.
    rewrite (fetchHistoricalData_miss env timeframe w0 start end_ (Hmiss _) R).
    cbv zeta.
    assert (Grow : forall (l : list Server.Request) x l', (l ++ x :: l')%list <> l).
    { intros l x l' E. apply (f_equal (@List.length _)) in E.
      rewrite length_app in E. simpl in E. lia. }
    unfold conclude_historical.
    destruct (Server.historical_price_full env _ Server.GCUSD start end_) as [body|].
    + destruct (Server.assign_historical body []); apply Grow.
    + destruct (Server.historical_price_full env _ Server.GLD start end_) as [body|];
        [destruct (Server.assign_historical body [])|];
        cbn [snd after_set after_requests after_miss Server.requests w0];
        rewrite <- app_assoc; apply Grow.
  - intros date.
    rewrite (fetchDateSpecificData_miss env date w0 (Hmiss _)). cbv zeta.
    destruct (Server.historical_price_full env _ Server.GCUSD date date)
      as [[[|q l]|[[|q l]|]|]|]; reflexivity.
Qed.
